(** * NeoWall compositor backend layer: registry, classifier, selector, X11 backend

    A shallow embedding of [src/compositor/compositor_registry.c] and
    [src/compositor/backends/x11.c], with the properties the design
    document states about them.

    Conventions of the embedding.
    - A C string ([const char *]) that may be [NULL] is an [option string];
      [strcmp (a, b) == 0] is [String.eqb a b].
    - C integers are [Z]; where the source narrows or widens an integer the
      wrap-around is written out ([to_uint16], [to_uint32]).
    - The process-global table [backend_registry] with its [backend_count]
      is a list of entries (the count is the length of the list), passed
      in and out of every function that reads or writes it.
    - Whatever lies outside the program (the heap, the display servers) is
      passed explicitly: an abstract [World] for the registry code, whose
      backends are arbitrary, and a record of server replies for the X11
      backend, whose requests are all known.
    - Log output is not modelled. *)

From Stdlib Require Import ZArith List String Ascii Bool Lia.
Import ListNotations.

Local Open Scope string_scope.
Local Open Scope Z_scope.
Local Open Scope list_scope.

(* ======================================================================== *)
(** * Part I. Definitions                                                    *)
(* ======================================================================== *)

(** ** C library *)

(** [strstr (haystack, needle)]: the suffix of [haystack] that starts at the
    first occurrence of [needle], [None] for the null pointer. *)
Fixpoint strstr (haystack needle : string) : option string :=
  if String.prefix needle haystack then Some haystack
  else match haystack with
       | EmptyString => None
       | String _ rest => strstr rest needle
       end.

(** The C truth value of a pointer. *)
Definition non_null {A : Type} (p : option A) : bool :=
  match p with Some _ => true | None => false end.

(** The recurring test [(v && strstr (v, needle))] on a variable of the
    process environment. *)
Definition hint (v : option string) (needle : string) : bool :=
  match v with
  | Some s => non_null (strstr s needle)
  | None => false
  end.

(** The process environment, as [getenv] sees it. *)
Definition environ : Type := string -> option string.

Definition to_uint16 (z : Z) : Z := z mod 65536.
Definition to_uint32 (z : Z) : Z := z mod 4294967296.

(** ** compositor.h *)

Definition compositor_capabilities_t : Type := Z.
Definition COMPOSITOR_CAP_NONE : compositor_capabilities_t := 0.
Definition COMPOSITOR_CAP_LAYER_SHELL : compositor_capabilities_t := Z.shiftl 1 0.
Definition COMPOSITOR_CAP_SUBSURFACES : compositor_capabilities_t := Z.shiftl 1 1.
Definition COMPOSITOR_CAP_VIEWPORT : compositor_capabilities_t := Z.shiftl 1 2.
Definition COMPOSITOR_CAP_EXCLUSIVE_ZONE : compositor_capabilities_t := Z.shiftl 1 3.
Definition COMPOSITOR_CAP_KEYBOARD_INTERACTIVITY : compositor_capabilities_t := Z.shiftl 1 4.
Definition COMPOSITOR_CAP_ANCHOR : compositor_capabilities_t := Z.shiftl 1 5.
Definition COMPOSITOR_CAP_MULTI_OUTPUT : compositor_capabilities_t := Z.shiftl 1 6.

Inductive compositor_layer_t : Type :=
| COMPOSITOR_LAYER_BACKGROUND
| COMPOSITOR_LAYER_BOTTOM
| COMPOSITOR_LAYER_TOP
| COMPOSITOR_LAYER_OVERLAY.

(** A [struct wl_output *] is an opaque handle. *)
Definition wl_output : Type := Z.

Record compositor_surface_config_t : Type := {
  layer : compositor_layer_t;
  anchor : Z;
  exclusive_zone : Z;
  keyboard_interactivity : bool;
  cfg_width : Z;                     (* int32_t width; 0 = auto *)
  cfg_height : Z;                    (* int32_t height; 0 = auto *)
  cfg_output : option wl_output      (* NULL = all outputs *)
}.

Inductive compositor_type_t : Type :=
| COMPOSITOR_TYPE_UNKNOWN
| COMPOSITOR_TYPE_HYPRLAND
| COMPOSITOR_TYPE_SWAY
| COMPOSITOR_TYPE_RIVER
| COMPOSITOR_TYPE_WAYFIRE
| COMPOSITOR_TYPE_KDE_PLASMA
| COMPOSITOR_TYPE_GNOME_SHELL
| COMPOSITOR_TYPE_MUTTER
| COMPOSITOR_TYPE_WESTON
| COMPOSITOR_TYPE_GENERIC.

Record compositor_info_t : Type := {
  info_type : compositor_type_t;
  info_name : string;
  info_version : string;
  has_layer_shell : bool;
  has_kde_shell : bool;
  has_gtk_shell : bool
}.

(** ** compositor_registry.c: protocol detection *)

Record protocol_state_t : Type := {
  proto_layer_shell : bool;          (* zwlr_layer_shell_v1 *)
  proto_kde_shell : bool;            (* org_kde_plasma_shell *)
  proto_gtk_shell : bool;            (* gtk_shell1 *)
  proto_viewporter : bool;           (* wp_viewporter *)
  compositor_name : string
}.

(** [protocol_state_t state = {0}]. *)
Definition protocol_state_zero : protocol_state_t :=
  {| proto_layer_shell := false; proto_kde_shell := false;
     proto_gtk_shell := false; proto_viewporter := false;
     compositor_name := "" |}.

Definition registry_handle_global (state : protocol_state_t) (interface : string)
  : protocol_state_t :=
  if String.eqb interface "zwlr_layer_shell_v1" then
    {| proto_layer_shell := true;
       proto_kde_shell := proto_kde_shell state;
       proto_gtk_shell := proto_gtk_shell state;
       proto_viewporter := proto_viewporter state;
       compositor_name := compositor_name state |}
  else if String.eqb interface "org_kde_plasma_shell" then
    {| proto_layer_shell := proto_layer_shell state;
       proto_kde_shell := true;
       proto_gtk_shell := proto_gtk_shell state;
       proto_viewporter := proto_viewporter state;
       compositor_name := compositor_name state |}
  else if String.eqb interface "gtk_shell1" then
    {| proto_layer_shell := proto_layer_shell state;
       proto_kde_shell := proto_kde_shell state;
       proto_gtk_shell := true;
       proto_viewporter := proto_viewporter state;
       compositor_name := compositor_name state |}
  else if String.eqb interface "wp_viewporter" then
    {| proto_layer_shell := proto_layer_shell state;
       proto_kde_shell := proto_kde_shell state;
       proto_gtk_shell := proto_gtk_shell state;
       proto_viewporter := true;
       compositor_name := compositor_name state |}
  else state.

(** A Wayland connection, seen through the one thing this code asks of it:
    [wl_display_get_registry] either fails ([None]) or yields a registry
    whose round trip announces the listed interfaces, in order. *)
Record wl_display : Type := {
  wl_display_get_registry : option (list string)
}.

Definition detect_protocols (display : wl_display) : protocol_state_t :=
  match wl_display_get_registry display with
  | None => protocol_state_zero
  | Some globals => fold_left registry_handle_global globals protocol_state_zero
  end.

(** ** compositor_registry.c: compositor type detection *)

Definition detect_compositor_type (getenv : environ) (proto : protocol_state_t)
  : compositor_type_t :=
  let desktop := getenv "XDG_CURRENT_DESKTOP" in
  let session := getenv "XDG_SESSION_DESKTOP" in
  let wayland_display := getenv "WAYLAND_DISPLAY" in
  if hint desktop "Hyprland" || hint session "Hyprland"
     || hint wayland_display "hyprland" then COMPOSITOR_TYPE_HYPRLAND
  else if hint desktop "sway" || hint session "sway"
          || non_null (getenv "SWAYSOCK") then COMPOSITOR_TYPE_SWAY
  else if hint desktop "river" || hint session "river" then COMPOSITOR_TYPE_RIVER
  else if hint desktop "wayfire" || hint session "wayfire" then COMPOSITOR_TYPE_WAYFIRE
  else if hint desktop "KDE" || hint session "plasma"
          || proto_kde_shell proto then COMPOSITOR_TYPE_KDE_PLASMA
  else if hint desktop "GNOME" || hint session "gnome"
          || proto_gtk_shell proto then COMPOSITOR_TYPE_GNOME_SHELL
  else if hint session "mutter" then COMPOSITOR_TYPE_MUTTER
  else if hint desktop "weston" || hint session "weston" then COMPOSITOR_TYPE_WESTON
  else if proto_layer_shell proto then COMPOSITOR_TYPE_GENERIC
  else COMPOSITOR_TYPE_UNKNOWN.

Definition compositor_type_to_string (t : compositor_type_t) : string :=
  match t with
  | COMPOSITOR_TYPE_HYPRLAND => "Hyprland"
  | COMPOSITOR_TYPE_SWAY => "Sway"
  | COMPOSITOR_TYPE_RIVER => "River"
  | COMPOSITOR_TYPE_WAYFIRE => "Wayfire"
  | COMPOSITOR_TYPE_KDE_PLASMA => "KDE Plasma"
  | COMPOSITOR_TYPE_GNOME_SHELL => "GNOME Shell"
  | COMPOSITOR_TYPE_MUTTER => "Mutter"
  | COMPOSITOR_TYPE_WESTON => "Weston"
  | COMPOSITOR_TYPE_GENERIC => "Generic wlroots"
  | COMPOSITOR_TYPE_UNKNOWN => "Unknown"
  end.

Definition compositor_detect (getenv : environ) (display : wl_display)
  : compositor_info_t :=
  let proto := detect_protocols display in
  let t := detect_compositor_type getenv proto in
  {| info_type := t;
     info_name := compositor_type_to_string t;
     info_version := match getenv "COMPOSITOR_VERSION" with
                | Some v => v
                | None => "unknown"
                end;
     has_layer_shell := proto_layer_shell proto;
     has_kde_shell := proto_kde_shell proto;
     has_gtk_shell := proto_gtk_shell proto |}.

(** The identity the environment names, with no regard to the advertised
    protocols: the environment tests of [detect_compositor_type], in its
    order, and nothing else.  Used to state what "an environment hint
    matches a known compositor" means. *)
Definition environment_identity (getenv : environ) : option compositor_type_t :=
  let desktop := getenv "XDG_CURRENT_DESKTOP" in
  let session := getenv "XDG_SESSION_DESKTOP" in
  let wayland_display := getenv "WAYLAND_DISPLAY" in
  if hint desktop "Hyprland" || hint session "Hyprland"
     || hint wayland_display "hyprland" then Some COMPOSITOR_TYPE_HYPRLAND
  else if hint desktop "sway" || hint session "sway"
          || non_null (getenv "SWAYSOCK") then Some COMPOSITOR_TYPE_SWAY
  else if hint desktop "river" || hint session "river" then Some COMPOSITOR_TYPE_RIVER
  else if hint desktop "wayfire" || hint session "wayfire" then Some COMPOSITOR_TYPE_WAYFIRE
  else if hint desktop "KDE" || hint session "plasma" then Some COMPOSITOR_TYPE_KDE_PLASMA
  else if hint desktop "GNOME" || hint session "gnome" then Some COMPOSITOR_TYPE_GNOME_SHELL
  else if hint session "mutter" then Some COMPOSITOR_TYPE_MUTTER
  else if hint desktop "weston" || hint session "weston" then Some COMPOSITOR_TYPE_WESTON
  else None.

(** The identity the advertised protocols alone indicate: the protocol tests
    of [detect_compositor_type], in its order. *)
Definition protocol_identity (proto : protocol_state_t) : compositor_type_t :=
  if proto_kde_shell proto then COMPOSITOR_TYPE_KDE_PLASMA
  else if proto_gtk_shell proto then COMPOSITOR_TYPE_GNOME_SHELL
  else if proto_layer_shell proto then COMPOSITOR_TYPE_GENERIC
  else COMPOSITOR_TYPE_UNKNOWN.


(** An environment given by a finite list of bindings. *)
Fixpoint env_of (bindings : list (string * string)) : environ :=
  fun var =>
    match bindings with
    | [] => None
    | (k, v) :: rest => if String.eqb k var then Some v else env_of rest var
    end.

(** ** compositor_registry.c: the backend registry and the selector *)

(** [struct neowall_state], of which this code reads one field. *)
Record neowall_state : Type := {
  display : option wl_display
}.

Definition MAX_BACKENDS : nat := 16.

(** The four ways out of [compositor_backend_register].  The source returns
    [false] at three places, told apart by the error each one logs, and
    [true] at the end. *)
Inductive register_result : Type :=
| RegistryFull        (* "Backend registry full, cannot register" *)
| InvalidArgument     (* "Invalid backend registration parameters" *)
| DuplicateName       (* "Backend already registered" *)
| Registered.

(** The [bool] that [compositor_backend_register] returns. *)
Definition register_ok (r : register_result) : bool :=
  match r with Registered => true | _ => false end.

(** What one attempt to bring up a named backend comes to: a backend
    returned, the loop left without one ([break], or no entry of that name),
    or [return NULL] after a failed [calloc]. *)
Inductive attempt (B : Type) : Type :=
| Selected (backend : B)
| Unavailable
| AllocFailed.
Arguments Selected {B} backend.
Arguments Unavailable {B}.
Arguments AllocFailed {B}.

Section Registry.

(** The world outside the program, which [init] and [cleanup] of a backend
    and [calloc] read and change. *)
Variable World : Type.

(** What the [void *] of a backend points to. *)
Variable backend_data : Type.

(** [calloc (1, sizeof (struct compositor_backend))]: whether the
    allocation succeeds, and the world after it. *)
Variable calloc : World -> bool * World.

(** [compositor_backend_ops_t], with the operations the registry code
    calls.  Every backend has to implement them (compositor.h), and
    [select_backend] calls [init], [cleanup] and [get_capabilities] through
    the table unchecked: the pointers are functions, never null. *)
Record compositor_backend_ops_t : Type := {
  init : neowall_state -> World -> option backend_data * World;
  cleanup : backend_data -> World -> World;
  get_capabilities : backend_data -> compositor_capabilities_t
}.

(** One slot of [backend_registry]. *)
Record backend_entry : Type := {
  entry_name : string;
  entry_description : option string;
  entry_priority : Z;
  entry_ops : compositor_backend_ops_t
}.

(** [backend_registry] and [backend_count]. *)
Definition registry : Type := list backend_entry.

Definition backend_count (reg : registry) : nat := List.length reg.

(** [struct compositor_backend]. *)
Record compositor_backend : Type := {
  name : string;
  description : option string;
  priority : Z;
  ops : option compositor_backend_ops_t;
  data : option backend_data;
  capabilities : compositor_capabilities_t
}.

(** The loop over the table that both [compositor_backend_register] and
    [select_backend] run: the first slot whose name compares equal. *)
Fixpoint registry_find (wanted : string) (reg : registry) : option backend_entry :=
  match reg with
  | [] => None
  | e :: rest =>
      if String.eqb (entry_name e) wanted then Some e
      else registry_find wanted rest
  end.

Definition compositor_backend_register
    (name : option string) (description : option string) (priority : Z)
    (ops : option compositor_backend_ops_t) (reg : registry)
  : register_result * registry :=
  if (MAX_BACKENDS <=? backend_count reg)%nat then (RegistryFull, reg)
  else
    match name, ops with
    | Some name, Some ops =>
        match registry_find name reg with
        | Some _ => (DuplicateName, reg)
        | None =>
            (Registered,
             reg ++ [ {| entry_name := name;
                         entry_description := description;
                         entry_priority := priority;
                         entry_ops := ops |} ])
        end
    | _, _ => (InvalidArgument, reg)
    end.

(** The [switch] at the head of [select_backend]. *)
Definition preferred_backend (info : compositor_info_t) : string :=
  match info_type info with
  | COMPOSITOR_TYPE_KDE_PLASMA => "wlr-layer-shell"
  | COMPOSITOR_TYPE_HYPRLAND
  | COMPOSITOR_TYPE_SWAY
  | COMPOSITOR_TYPE_RIVER
  | COMPOSITOR_TYPE_WAYFIRE => "wlr-layer-shell"
  | COMPOSITOR_TYPE_GNOME_SHELL
  | COMPOSITOR_TYPE_MUTTER => "gnome-shell"
  | _ => if has_layer_shell info then "wlr-layer-shell" else "fallback"
  end.

(** The body run on the slot whose name matched: [init], then the
    allocation and filling of the [struct compositor_backend]. *)
Definition init_entry (e : backend_entry) (state : neowall_state) (w : World)
  : attempt compositor_backend * World :=
  match init (entry_ops e) state w with
  | (None, w1) => (Unavailable, w1)
  | (Some backend_data, w1) =>
      let (allocated, w2) := calloc w1 in
      if allocated then
        (Selected {| name := entry_name e;
                     description := entry_description e;
                     priority := entry_priority e;
                     ops := Some (entry_ops e);
                     data := Some backend_data;
                     capabilities := get_capabilities (entry_ops e) backend_data |},
         w2)
      else (AllocFailed, cleanup (entry_ops e) backend_data w2)
  end.

(** Either of the two [for] loops of [select_backend]; they differ in the
    name compared against and in what they log. *)
Fixpoint try_backend (wanted : string) (reg : registry)
    (state : neowall_state) (w : World) : attempt compositor_backend * World :=
  match reg with
  | [] => (Unavailable, w)
  | e :: rest =>
      if String.eqb (entry_name e) wanted then init_entry e state w
      else try_backend wanted rest state w
  end.

Definition select_backend (state : neowall_state) (info : compositor_info_t)
    (reg : registry) (w : World) : option compositor_backend * World :=
  let preferred := preferred_backend info in
  match try_backend preferred reg state w with
  | (Selected backend, w1) => (Some backend, w1)
  | (AllocFailed, w1) => (None, w1)
  | (Unavailable, w1) =>
      if negb (String.eqb preferred "fallback") then
        match try_backend "fallback" reg state w1 with
        | (Selected backend, w2) => (Some backend, w2)
        | (_, w2) => (None, w2)
        end
      else (None, w1)
  end.

(** The registration entry points of the backends.  Four of them live in
    files of [backends/] that are not part of this development; each takes
    the global state and may register with the table.  The fifth, for X11,
    is compiled in under [HAVE_X11] and registers one fixed descriptor; its
    operation table is passed by address, and stands here as a variable. *)
Variable compositor_backend_wlr_layer_shell_init
  : neowall_state -> registry * World -> registry * World.
Variable compositor_backend_kde_plasma_init
  : neowall_state -> registry * World -> registry * World.
Variable compositor_backend_gnome_shell_init
  : neowall_state -> registry * World -> registry * World.
Variable compositor_backend_fallback_init
  : neowall_state -> registry * World -> registry * World.
Variable HAVE_X11 : bool.
Variable x11_backend_ops : compositor_backend_ops_t.

Definition compositor_backend_x11_init (state : neowall_state)
    (rw : registry * World) : registry * World :=
  (snd (compositor_backend_register
          (Some "x11")
          (Some "X11/XCB backend with desktop window type (full compatibility)")
          50 (Some x11_backend_ops) (fst rw)),
   snd rw).

Definition compositor_backend_init (getenv : environ)
    (state : option neowall_state) (reg : registry) (w : World)
  : option compositor_backend * registry * World :=
  match state with
  | None => (None, reg, w)
  | Some st =>
      match display st with
      | None => (None, reg, w)
      | Some dpy =>
          let info := compositor_detect getenv dpy in
          let rw := compositor_backend_wlr_layer_shell_init st (reg, w) in
          let rw := compositor_backend_kde_plasma_init st rw in
          let rw := compositor_backend_gnome_shell_init st rw in
          let rw := if HAVE_X11 then compositor_backend_x11_init st rw else rw in
          let rw := compositor_backend_fallback_init st rw in
          let (backend, w') := select_backend st info (fst rw) (snd rw) in
          (backend, fst rw, w')
      end
  end.

Definition compositor_backend_cleanup (backend : option compositor_backend)
    (w : World) : World :=
  match backend with
  | None => w
  | Some b =>
      match ops b, data b with
      | Some o, Some d => cleanup o d w
      | _, _ => w
      end
  end.

Definition compositor_backend_get_capabilities
    (backend : option compositor_backend) : compositor_capabilities_t :=
  match backend with
  | None => COMPOSITOR_CAP_NONE
  | Some b => capabilities b
  end.

End Registry.

Arguments Build_compositor_backend_ops_t {World backend_data}.
Arguments init {World backend_data}.
Arguments cleanup {World backend_data}.
Arguments get_capabilities {World backend_data}.
Arguments Build_backend_entry {World backend_data}.
Arguments entry_name {World backend_data}.
Arguments entry_description {World backend_data}.
Arguments entry_priority {World backend_data}.
Arguments entry_ops {World backend_data}.
Arguments Build_compositor_backend {World backend_data}.
Arguments name {World backend_data}.
Arguments description {World backend_data}.
Arguments priority {World backend_data}.
Arguments ops {World backend_data}.
Arguments data {World backend_data}.
Arguments capabilities {World backend_data}.
Arguments registry_find {World backend_data}.
Arguments backend_count {World backend_data}.
Arguments compositor_backend_register {World backend_data}.
Arguments init_entry {World backend_data}.
Arguments try_backend {World backend_data}.
Arguments select_backend {World backend_data}.
Arguments compositor_backend_x11_init {World backend_data}.
Arguments compositor_backend_init {World backend_data}.
Arguments compositor_backend_cleanup {World backend_data}.
Arguments compositor_backend_get_capabilities {World backend_data}.

(** ** backends/x11.c: data *)

Definition xcb_window_t : Type := Z.
Definition xcb_atom_t : Type := Z.
Definition XCB_NONE : Z := 0.
Definition XCB_ATOM_NONE : xcb_atom_t := 0.
Definition XCB_WINDOW_NONE : xcb_window_t := 0.
Definition XCB_ATOM_ATOM : xcb_atom_t := 4.
Definition XCB_RANDR_CONNECTION_CONNECTED : Z := 0.
Definition XCB_CONFIG_WINDOW_WIDTH : Z := 4.
Definition XCB_CONFIG_WINDOW_HEIGHT : Z := 8.
Definition XCB_CW_BACK_PIXEL : Z := 2.
Definition XCB_CW_BORDER_PIXEL : Z := 8.
Definition XCB_CW_OVERRIDE_REDIRECT : Z := 512.
Definition XCB_CW_EVENT_MASK : Z := 2048.
Definition XCB_EVENT_MASK_EXPOSURE : Z := 32768.
Definition XCB_EVENT_MASK_STRUCTURE_NOTIFY : Z := 131072.
Definition XCB_EVENT_MASK_VISIBILITY_CHANGE : Z := 65536.
Definition XCB_RANDR_NOTIFY_MASK_SCREEN_CHANGE : Z := 1.
Definition XCB_RANDR_NOTIFY_MASK_CRTC_CHANGE : Z := 2.
Definition XCB_RANDR_NOTIFY_MASK_OUTPUT_CHANGE : Z := 4.
Definition XCB_SHAPE_SK_INPUT : Z := 2.

Record x11_atoms_t : Type := {
  wm_protocols : xcb_atom_t;
  wm_delete_window : xcb_atom_t;
  net_wm_name : xcb_atom_t;
  net_wm_window_type : xcb_atom_t;
  net_wm_window_type_desktop : xcb_atom_t;
  net_wm_state : xcb_atom_t;
  net_wm_state_below : xcb_atom_t;
  net_wm_state_sticky : xcb_atom_t;
  utf8_string : xcb_atom_t
}.

(** [x11_output_t].  The [next] pointer is the tail of the list the record
    sits in; the [surface] pointer names the surface by its window. *)
Record x11_output_t : Type := {
  output_id : Z;
  crtc : Z;
  x : Z;                             (* int16_t *)
  y : Z;                             (* int16_t *)
  width : Z;                         (* uint16_t *)
  height : Z;                        (* uint16_t *)
  output_name : string;              (* char name[64] *)
  surface : option xcb_window_t
}.

Record xcb_screen_t : Type := {
  root : xcb_window_t;
  width_in_pixels : Z;               (* uint16_t *)
  height_in_pixels : Z;              (* uint16_t *)
  black_pixel : Z;
  root_visual : Z
}.

(** The requests this backend sends over its XCB connection. *)
Inductive xcb_request : Type :=
| xcb_randr_select_input (window : xcb_window_t) (enable : Z)
| xcb_create_window_checked (wid parent : xcb_window_t) (x y width height : Z)
    (visual value_mask : Z) (value_list : list Z)
| xcb_change_property (window : xcb_window_t) (property type : xcb_atom_t)
    (format : Z) (value : list Z)
| xcb_xfixes_create_region (region : Z)
| xcb_xfixes_set_window_shape_region (dest : xcb_window_t) (kind region : Z)
| xcb_xfixes_destroy_region (region : Z)
| xcb_configure_window (window : xcb_window_t) (value_mask : Z) (value_list : list Z)
| xcb_map_window (window : xcb_window_t)
| xcb_destroy_window (window : xcb_window_t)
| xcb_flush.

(** [x11_backend_data_t].  The connection is the sequence of requests sent
    over it so far, oldest first. *)
Record x11_backend_data_t : Type := {
  xlib_display : Z;
  xcb_conn : list xcb_request;
  screen : xcb_screen_t;
  root_window : xcb_window_t;
  screen_number : Z;
  atoms : x11_atoms_t;
  has_randr : bool;
  has_shape : bool;
  has_xfixes : bool;
  randr_event_base : Z;
  outputs : list x11_output_t;
  output_count : Z;                  (* uint32_t *)
  initialized : bool
}.

(** [x11_surface_data_t].  The [output] pointer is the position of the
    output in the list of the backend. *)
Record x11_surface_data_t : Type := {
  window : xcb_window_t;
  xlib_window : Z;
  sd_output : option nat;
  mapped : bool;
  sd_configured : bool
}.

(** [struct compositor_surface] as this backend fills it.  The three
    callback fields stay null throughout and are left out.  So is the
    back-pointer [backend]: [x11_create_surface] leaves it null, and it is
    for the caller to set it before [x11_destroy_surface],
    [x11_configure_surface] or [x11_commit_surface] read
    [surface->backend->data].  Those three take the backend data as an
    argument of their own, which stands for what the back-pointer of the
    surface points to; they say nothing of a surface whose back-pointer is
    still null. *)
Record compositor_surface : Type := {
  wl_surface : option Z;
  egl_window : option Z;
  egl_surface : option Z;            (* EGL_NO_SURFACE is the null handle *)
  output : option wl_output;
  surface_width : Z;                 (* int32_t width *)
  surface_height : Z;                (* int32_t height *)
  scale : Z;
  config : compositor_surface_config_t;
  configured : bool;
  committed : bool;
  backend_data : x11_surface_data_t
}.

Record xcb_query_extension_reply_t : Type := {
  present : bool;
  first_event : Z
}.

Record xcb_randr_get_output_info_reply_t : Type := {
  connection : Z;
  reply_crtc : Z;
  reply_name : string                 (* name_len bytes *)
}.

Record xcb_randr_get_crtc_info_reply_t : Type := {
  crtc_x : Z;
  crtc_y : Z;
  crtc_width : Z;
  crtc_height : Z
}.

(** The X server and Xlib, as the answers they give.  [None] is a null
    reply.  [server_screen] is the screen the roots iterator stands on
    after [DefaultScreen] steps. *)
Record x_server : Type := {
  XOpenDisplay : option Z;
  XGetXCBConnection : option Z;
  DefaultScreen : Z;
  server_screen : xcb_screen_t;
  xcb_intern_atom_reply : string -> option xcb_atom_t;
  randr_extension_data : option xcb_query_extension_reply_t;
  xfixes_extension_data : option xcb_query_extension_reply_t;
  xcb_randr_get_screen_resources_current_reply : option (list Z);
  xcb_randr_get_output_info_reply : Z -> option xcb_randr_get_output_info_reply_t;
  xcb_randr_get_crtc_info_reply : Z -> option xcb_randr_get_crtc_info_reply_t;
  xcb_generate_id : list xcb_request -> Z;
  xcb_request_check : xcb_request -> option Z
}.

(** The heap, as the outcomes of the allocations to come; once the list is
    used up every allocation succeeds. *)
Definition heap : Type := list bool.

Definition x11_calloc (h : heap) : bool * heap :=
  match h with
  | [] => (true, [])
  | ok :: rest => (ok, rest)
  end.

(** The bytes of a buffer up to its first NUL. *)
Fixpoint c_string (s : string) : string :=
  match s with
  | EmptyString => EmptyString
  | String c rest =>
      if Ascii.eqb c zero then EmptyString else String c (c_string rest)
  end.

(** [snprintf (buf, size, "%.*s", len, s)] for a source [s] of [len] bytes. *)
Definition snprintf_s (size : nat) (s : string) : string :=
  substring 0 (size - 1) (c_string s).

(** ** backends/x11.c: atoms and outputs *)

Definition x11_get_atom (srv : x_server) (name : string) : xcb_atom_t :=
  match xcb_intern_atom_reply srv name with
  | None => XCB_ATOM_NONE
  | Some atom => atom
  end.

Definition x11_init_atoms (srv : x_server) : bool * x11_atoms_t :=
  let a :=
    {| wm_protocols := x11_get_atom srv "WM_PROTOCOLS";
       wm_delete_window := x11_get_atom srv "WM_DELETE_WINDOW";
       net_wm_name := x11_get_atom srv "_NET_WM_NAME";
       net_wm_window_type := x11_get_atom srv "_NET_WM_WINDOW_TYPE";
       net_wm_window_type_desktop := x11_get_atom srv "_NET_WM_WINDOW_TYPE_DESKTOP";
       net_wm_state := x11_get_atom srv "_NET_WM_STATE";
       net_wm_state_below := x11_get_atom srv "_NET_WM_STATE_BELOW";
       net_wm_state_sticky := x11_get_atom srv "_NET_WM_STATE_STICKY";
       utf8_string := x11_get_atom srv "UTF8_STRING" |} in
  (negb (net_wm_window_type_desktop a =? XCB_ATOM_NONE), a).

(** Writing the output list and its count, as [x11_detect_outputs] and
    [x11_free_outputs] do. *)
Definition set_outputs (backend : x11_backend_data_t)
    (outs : list x11_output_t) (count : Z) : x11_backend_data_t :=
  {| xlib_display := xlib_display backend;
     xcb_conn := xcb_conn backend;
     screen := screen backend;
     root_window := root_window backend;
     screen_number := screen_number backend;
     atoms := atoms backend;
     has_randr := has_randr backend;
     has_shape := has_shape backend;
     has_xfixes := has_xfixes backend;
     randr_event_base := randr_event_base backend;
     outputs := outs;
     output_count := count;
     initialized := initialized backend |}.

(** Sending one request over the connection of the backend. *)
Definition send (backend : x11_backend_data_t) (req : xcb_request)
  : x11_backend_data_t :=
  {| xlib_display := xlib_display backend;
     xcb_conn := xcb_conn backend ++ [req];
     screen := screen backend;
     root_window := root_window backend;
     screen_number := screen_number backend;
     atoms := atoms backend;
     has_randr := has_randr backend;
     has_shape := has_shape backend;
     has_xfixes := has_xfixes backend;
     randr_event_base := randr_event_base backend;
     outputs := outputs backend;
     output_count := output_count backend;
     initialized := initialized backend |}.

Definition x11_free_outputs (backend : x11_backend_data_t) : x11_backend_data_t :=
  set_outputs backend [] 0.

(** One round of the [for] loop of [x11_detect_outputs], on the output
    [id]: the list and count so far and the heap go in and come out. *)
Definition detect_one_output (srv : x_server) (id : Z)
    (acc : list x11_output_t * Z * heap) : list x11_output_t * Z * heap :=
  let '(outs, count, h) := acc in
  match xcb_randr_get_output_info_reply srv id with
  | None => acc
  | Some output_reply =>
      if negb (connection output_reply =? XCB_RANDR_CONNECTION_CONNECTED)
         || (reply_crtc output_reply =? XCB_NONE)
      then acc
      else
        match xcb_randr_get_crtc_info_reply srv (reply_crtc output_reply) with
        | None => acc
        | Some crtc_reply =>
            let (allocated, h') := x11_calloc h in
            if allocated then
              ({| output_id := id;
                  crtc := reply_crtc output_reply;
                  x := crtc_x crtc_reply;
                  y := crtc_y crtc_reply;
                  width := crtc_width crtc_reply;
                  height := crtc_height crtc_reply;
                  output_name := snprintf_s 64 (reply_name output_reply);
                  surface := None |} :: outs,
               to_uint32 (count + 1),
               h')
            else (outs, count, h')
        end
  end.

Definition x11_detect_outputs (backend : x11_backend_data_t) (srv : x_server)
    (h : heap) : bool * x11_backend_data_t * heap :=
  if negb (has_randr backend) then
    let (allocated, h') := x11_calloc h in
    if allocated then
      (true,
       set_outputs backend
         [ {| output_id := 0; crtc := 0; x := 0; y := 0;
              width := width_in_pixels (screen backend);
              height := height_in_pixels (screen backend);
              output_name := snprintf_s 64 "screen";
              surface := None |} ]
         1,
       h')
    else (false, backend, h')
  else
    match xcb_randr_get_screen_resources_current_reply srv with
    | None => (false, backend, h)
    | Some ids =>
        let backend := x11_free_outputs backend in
        let '(outs, count, h') :=
          fold_left (fun acc id => detect_one_output srv id acc) ids
                    (outputs backend, output_count backend, h) in
        (0 <? count, set_outputs backend outs count, h')
    end.

(** ** backends/x11.c: window creation *)

(** The bytes of a string, for a property of format 8. *)
Fixpoint bytes_of (s : string) : list Z :=
  match s with
  | EmptyString => []
  | String c rest => Z.of_nat (nat_of_ascii c) :: bytes_of rest
  end.

(** The window, or [XCB_WINDOW_NONE], and the backend with the requests
    sent.  [x], [y] are [int16_t] and [width], [height] are [uint16_t]. *)
Definition x11_create_desktop_window (backend : x11_backend_data_t)
    (srv : x_server) (x y width height : Z) : xcb_window_t * x11_backend_data_t :=
  let window := xcb_generate_id srv (xcb_conn backend) in
  let value_mask :=
    Z.lor (Z.lor XCB_CW_BACK_PIXEL XCB_CW_BORDER_PIXEL)
          (Z.lor XCB_CW_OVERRIDE_REDIRECT XCB_CW_EVENT_MASK) in
  let value_list :=
    [ black_pixel (screen backend); 0; 1;
      Z.lor (Z.lor XCB_EVENT_MASK_EXPOSURE XCB_EVENT_MASK_STRUCTURE_NOTIFY)
            XCB_EVENT_MASK_VISIBILITY_CHANGE ] in
  let create :=
    xcb_create_window_checked window (root_window backend) x y width height
      (root_visual (screen backend)) value_mask value_list in
  let backend := send backend create in
  match xcb_request_check srv create with
  | Some _ => (XCB_WINDOW_NONE, backend)
  | None =>
      let backend :=
        send backend
          (xcb_change_property window (net_wm_window_type (atoms backend))
             XCB_ATOM_ATOM 32 [net_wm_window_type_desktop (atoms backend)]) in
      let backend :=
        send backend
          (xcb_change_property window (net_wm_state (atoms backend))
             XCB_ATOM_ATOM 32
             [net_wm_state_below (atoms backend);
              net_wm_state_sticky (atoms backend)]) in
      let backend :=
        send backend
          (xcb_change_property window (net_wm_name (atoms backend))
             (utf8_string (atoms backend)) 8 (bytes_of "NeoWall")) in
      let backend :=
        if has_xfixes backend then
          let region := xcb_generate_id srv (xcb_conn backend) in
          let backend := send backend (xcb_xfixes_create_region region) in
          let backend :=
            send backend
              (xcb_xfixes_set_window_shape_region window XCB_SHAPE_SK_INPUT region) in
          send backend (xcb_xfixes_destroy_region region)
        else backend in
      (window, send backend xcb_flush)
  end.

(** ** backends/x11.c: backend operations *)

Definition extension_present (ext : option xcb_query_extension_reply_t) : bool :=
  match ext with
  | Some reply => present reply
  | None => false
  end.

Definition x11_backend_init (state : option neowall_state) (srv : x_server)
    (h : heap) : option x11_backend_data_t * heap :=
  match state with
  | None => (None, h)
  | Some _ =>
      let (allocated, h) := x11_calloc h in
      if negb allocated then (None, h)
      else
        match XOpenDisplay srv with
        | None => (None, h)
        | Some dpy =>
            match XGetXCBConnection srv with
            | None => (None, h)
            | Some _ =>
                let (atoms_ok, atoms) := x11_init_atoms srv in
                if negb atoms_ok then (None, h)
                else
                  let randr := extension_present (randr_extension_data srv) in
                  let backend :=
                    {| xlib_display := dpy;
                       xcb_conn :=
                         if randr then
                           [ xcb_randr_select_input (root (server_screen srv))
                               (Z.lor (Z.lor XCB_RANDR_NOTIFY_MASK_OUTPUT_CHANGE
                                             XCB_RANDR_NOTIFY_MASK_CRTC_CHANGE)
                                      XCB_RANDR_NOTIFY_MASK_SCREEN_CHANGE) ]
                         else [];
                       screen := server_screen srv;
                       root_window := root (server_screen srv);
                       screen_number := DefaultScreen srv;
                       atoms := atoms;
                       has_randr := randr;
                       has_shape := false;
                       has_xfixes := extension_present (xfixes_extension_data srv);
                       randr_event_base :=
                         match randr_extension_data srv with
                         | Some reply => if present reply then first_event reply else 0
                         | None => 0
                         end;
                       outputs := [];
                       output_count := 0;
                       initialized := false |} in
                  let '(detected, backend, h) := x11_detect_outputs backend srv h in
                  if negb detected then (None, h)
                  else
                    (Some {| xlib_display := xlib_display backend;
                             xcb_conn := xcb_conn backend;
                             screen := screen backend;
                             root_window := root_window backend;
                             screen_number := screen_number backend;
                             atoms := atoms;
                             has_randr := has_randr backend;
                             has_shape := has_shape backend;
                             has_xfixes := has_xfixes backend;
                             randr_event_base := randr_event_base backend;
                             outputs := outputs backend;
                             output_count := output_count backend;
                             initialized := true |},
                     h)
            end
        end
  end.

(** [output->surface = s] on the output at position [i] of the list. *)
Fixpoint set_output_surface (outs : list x11_output_t) (i : nat)
    (s : option xcb_window_t) : list x11_output_t :=
  match outs, i with
  | [], _ => []
  | o :: rest, O =>
      {| output_id := output_id o; crtc := crtc o; x := x o; y := y o;
         width := width o; height := height o; output_name := output_name o;
         surface := s |} :: rest
  | o :: rest, S i' => o :: set_output_surface rest i' s
  end.

Definition x11_create_surface (data : option x11_backend_data_t)
    (config : option compositor_surface_config_t) (srv : x_server) (h : heap)
  : option compositor_surface * option x11_backend_data_t * heap :=
  match data, config with
  | Some backend, Some config =>
      if negb (initialized backend) then (None, data, h)
      else
        match outputs backend with
        | [] => (None, data, h)
        | output :: _ =>
            let (surface_allocated, h) := x11_calloc h in
            if negb surface_allocated then (None, data, h)
            else
              let (data_allocated, h) := x11_calloc h in
              if negb data_allocated then (None, data, h)
              else
                let width :=
                  to_uint16 (if 0 <? cfg_width config then cfg_width config
                             else width output) in
                let height :=
                  to_uint16 (if 0 <? cfg_height config then cfg_height config
                             else height output) in
                let x := x output in
                let y := y output in
                let (window, backend) :=
                  x11_create_desktop_window backend srv x y width height in
                if window =? XCB_WINDOW_NONE then (None, Some backend, h)
                else
                  let surface :=
                    {| wl_surface := None;
                       egl_window := None;
                       egl_surface := None;
                       output := cfg_output config;
                       surface_width := width;
                       surface_height := height;
                       scale := 1;
                       config := config;
                       configured := false;
                       committed := false;
                       backend_data :=
                         {| window := window;
                            xlib_window := window;
                            sd_output := Some O;
                            mapped := true;
                            sd_configured := true |} |} in
                  let backend := send backend (xcb_map_window window) in
                  let backend := send backend xcb_flush in
                  (Some surface,
                   Some (set_outputs backend
                           (set_output_surface (outputs backend) O (Some window))
                           (output_count backend)),
                   h)
        end
  | _, _ => (None, data, h)
  end.

(** The surface is freed; what is left is the backend it belonged to. *)
Definition x11_destroy_surface (backend : x11_backend_data_t)
    (surface : option compositor_surface) : x11_backend_data_t :=
  match surface with
  | None => backend
  | Some s =>
      let surface_data := backend_data s in
      let backend :=
        if negb (window surface_data =? XCB_WINDOW_NONE) then
          send (send backend (xcb_destroy_window (window surface_data))) xcb_flush
        else backend in
      match sd_output surface_data with
      | Some i =>
          set_outputs backend (set_output_surface (outputs backend) i None)
                      (output_count backend)
      | None => backend
      end
  end.

Definition x11_configure_surface (backend : x11_backend_data_t)
    (surface : option compositor_surface)
    (config : option compositor_surface_config_t)
  : bool * x11_backend_data_t * option compositor_surface :=
  match surface, config with
  | Some s, Some config =>
      let surface_data := backend_data s in
      let resize :=
        negb (cfg_width config =? surface_width s)
        || negb (cfg_height config =? surface_height s) in
      let backend :=
        if resize then
          send backend
            (xcb_configure_window (window surface_data)
               (Z.lor XCB_CONFIG_WINDOW_WIDTH XCB_CONFIG_WINDOW_HEIGHT)
               [to_uint32 (cfg_width config); to_uint32 (cfg_height config)])
        else backend in
      (true,
       send backend xcb_flush,
       Some {| wl_surface := wl_surface s;
               egl_window := egl_window s;
               egl_surface := egl_surface s;
               output := output s;
               surface_width := if resize then cfg_width config else surface_width s;
               surface_height := if resize then cfg_height config else surface_height s;
               scale := scale s;
               config := config;
               configured := configured s;
               committed := committed s;
               backend_data := backend_data s |})
  | _, _ => (false, backend, surface)
  end.

(** The cast [(struct wl_egl_window * )(uintptr_t) xlib_window]: the
    window as a pointer, which is null for the window 0. *)
Definition window_as_pointer (xlib_window : Z) : option Z :=
  if xlib_window =? 0 then None else Some xlib_window.

Definition x11_create_egl_window (surface : option compositor_surface)
    (width height : Z) : bool * option compositor_surface :=
  match surface with
  | None => (false, None)
  | Some s =>
      (true,
       Some {| wl_surface := wl_surface s;
               egl_window := window_as_pointer (xlib_window (backend_data s));
               egl_surface := egl_surface s;
               output := output s;
               surface_width := width;
               surface_height := height;
               scale := scale s;
               config := config s;
               configured := configured s;
               committed := committed s;
               backend_data := backend_data s |})
  end.

Definition x11_destroy_egl_window (surface : option compositor_surface)
  : option compositor_surface :=
  match surface with
  | None => None
  | Some s =>
      Some {| wl_surface := wl_surface s;
              egl_window := None;
              egl_surface := egl_surface s;
              output := output s;
              surface_width := surface_width s;
              surface_height := surface_height s;
              scale := scale s;
              config := config s;
              configured := configured s;
              committed := committed s;
              backend_data := backend_data s |}
  end.

Definition x11_commit_surface (backend : x11_backend_data_t)
    (surface : option compositor_surface) : x11_backend_data_t :=
  match surface with
  | None => backend
  | Some _ => send backend xcb_flush
  end.

Definition x11_get_capabilities (data : option x11_backend_data_t)
  : compositor_capabilities_t :=
  match data with
  | Some backend =>
      if has_randr backend
      then Z.lor COMPOSITOR_CAP_NONE COMPOSITOR_CAP_MULTI_OUTPUT
      else COMPOSITOR_CAP_NONE
  | None => COMPOSITOR_CAP_NONE
  end.

(** ** Statements of the design document that the code is measured against *)

(** [lookup (name)] of the design document: the descriptor registered under
    the name, or not found. *)
Definition lookup {World backend_data : Type} (wanted : string)
    (reg : registry World backend_data)
  : option (backend_entry World backend_data) :=
  find (fun e => String.eqb (entry_name e) wanted) reg.

(** Selecting a backend directly by its name, in the words of the design
    document: look the name up in the registry; if found, invoke its
    [init]; if [init] returns a valid instance, query [get_capabilities],
    wrap in a backend instance and return it.  Nothing of the code of the
    selector is used. *)
Definition select_directly {World backend_data : Type} (wanted : string)
    (reg : registry World backend_data) (state : neowall_state) (w : World)
  : option (compositor_backend World backend_data) :=
  match lookup wanted reg with
  | None => None
  | Some e =>
      match fst (init (entry_ops e) state w) with
      | None => None
      | Some instance =>
          Some {| name := entry_name e;
                  description := entry_description e;
                  priority := entry_priority e;
                  ops := Some (entry_ops e);
                  data := Some instance;
                  capabilities := get_capabilities (entry_ops e) instance |}
      end
  end.

(** The world after the attempt to bring up the backend of a name: the
    world its [init] leaves, or the same world if the name is not
    registered. *)
Definition world_after_attempt {World backend_data : Type} (wanted : string)
    (reg : registry World backend_data) (state : neowall_state) (w : World)
  : World :=
  match lookup wanted reg with
  | None => w
  | Some e => snd (init (entry_ops e) state w)
  end.

(** The name is not registered, or the [init] registered under it returns
    null in the world [w]. *)
Definition unavailable {World backend_data : Type} (wanted : string)
    (reg : registry World backend_data) (state : neowall_state) (w : World)
  : Prop :=
  lookup wanted reg = None \/
  exists e, lookup wanted reg = Some e /\
            fst (init (entry_ops e) state w) = None.

(** "Registration fails with InvalidArgument if the name is empty". *)
Definition empty_name_is_invalid : Prop :=
  forall (reg : registry unit nat)
         (ops : compositor_backend_ops_t unit nat) description priority,
    fst (compositor_backend_register (Some "") description priority
           (Some ops) reg)
    = InvalidArgument.

(** A query about the output [id] fails: no reply about the output, or no
    reply about its CRTC. *)
Definition query_fails (srv : x_server) (id : Z) : Prop :=
  xcb_randr_get_output_info_reply srv id = None \/
  exists r, xcb_randr_get_output_info_reply srv id = Some r /\
            xcb_randr_get_crtc_info_reply srv (reply_crtc r) = None.

(** The server with another answer to the screen-resources query. *)
Definition with_resources (srv : x_server) (resources : option (list Z))
  : x_server :=
  {| XOpenDisplay := XOpenDisplay srv;
     XGetXCBConnection := XGetXCBConnection srv;
     DefaultScreen := DefaultScreen srv;
     server_screen := server_screen srv;
     xcb_intern_atom_reply := xcb_intern_atom_reply srv;
     randr_extension_data := randr_extension_data srv;
     xfixes_extension_data := xfixes_extension_data srv;
     xcb_randr_get_screen_resources_current_reply := resources;
     xcb_randr_get_output_info_reply := xcb_randr_get_output_info_reply srv;
     xcb_randr_get_crtc_info_reply := xcb_randr_get_crtc_info_reply srv;
     xcb_generate_id := xcb_generate_id srv;
     xcb_request_check := xcb_request_check srv |}.





(** A run of registrations, one after the other. *)
Record registration (World backend_data : Type) : Type := {
  reg_name : option string;
  reg_description : option string;
  reg_priority : Z;
  reg_ops : option (compositor_backend_ops_t World backend_data)
}.
Arguments Build_registration {World backend_data}.
Arguments reg_name {World backend_data}.
Arguments reg_description {World backend_data}.
Arguments reg_priority {World backend_data}.
Arguments reg_ops {World backend_data}.

Definition register_all {World backend_data : Type}
    (calls : list (registration World backend_data))
    (reg : registry World backend_data) : registry World backend_data :=
  fold_left
    (fun reg c =>
       snd (compositor_backend_register (reg_name c) (reg_description c)
              (reg_priority c) (reg_ops c) reg))
    calls reg.

(** With which flags set does the identity named by the environment lose
    to an earlier protocol test of [detect_compositor_type]. *)
Definition shell_flag_outranks (t : compositor_type_t) (proto : protocol_state_t)
  : bool :=
  match t with
  | COMPOSITOR_TYPE_GNOME_SHELL => proto_kde_shell proto
  | COMPOSITOR_TYPE_MUTTER
  | COMPOSITOR_TYPE_WESTON => proto_kde_shell proto || proto_gtk_shell proto
  | _ => false
  end.

(** The record [x11_detect_outputs] makes up when RandR is not there. *)
Definition synthetic_output (backend : x11_backend_data_t) : x11_output_t :=
  {| output_id := 0; crtc := 0; x := 0; y := 0;
     width := width_in_pixels (screen backend);
     height := height_in_pixels (screen backend);
     output_name := "screen";
     surface := None |}.

(** "Any output-resource query failure degrades to the single synthetic
    output": with RandR present and no reply to the screen-resources query,
    and no allocation failing, detection succeeds with that one output. *)
Definition randr_failure_degrades : Prop :=
  forall backend srv,
    has_randr backend = true ->
    xcb_randr_get_screen_resources_current_reply srv = None ->
    x11_detect_outputs backend srv [] =
      (true, set_outputs backend [synthetic_output backend] 1, []).


(** ** Sample inputs *)

Definition sample_ops (ok : bool) : compositor_backend_ops_t unit nat :=
  {| init := fun _ w => (if ok then Some 7%nat else None, w);
     cleanup := fun _ w => w;
     get_capabilities := fun _ => COMPOSITOR_CAP_LAYER_SHELL |}.

Definition sample_calloc (w : unit) : bool * unit := (true, w).

Definition sample_state : neowall_state :=
  {| display := Some {| wl_display_get_registry := Some ["zwlr_layer_shell_v1"] |} |}.

Definition sample_entry (n : string) (p : Z) (ok : bool) : backend_entry unit nat :=
  {| entry_name := n; entry_description := None; entry_priority := p;
     entry_ops := sample_ops ok |}.

Definition sample_full_registry : registry unit nat :=
  map (fun n => sample_entry n 0 true)
      ["b00"; "b01"; "b02"; "b03"; "b04"; "b05"; "b06"; "b07";
       "b08"; "b09"; "b10"; "b11"; "b12"; "b13"; "b14"; "b15"].

Definition sample_info (t : compositor_type_t) (layer : bool) : compositor_info_t :=
  {| info_type := t; info_name := compositor_type_to_string t;
     info_version := "unknown"; has_layer_shell := layer;
     has_kde_shell := false; has_gtk_shell := false |}.

Definition sample_proto (layer kde gtk : bool) : protocol_state_t :=
  {| proto_layer_shell := layer; proto_kde_shell := kde; proto_gtk_shell := gtk;
     proto_viewporter := false; compositor_name := "" |}.

Definition sample_screen : xcb_screen_t :=
  {| root := 1; width_in_pixels := 1920; height_in_pixels := 1080;
     black_pixel := 0; root_visual := 33 |}.

(** A server with two monitors side by side, [DP-1] (output 1) at the
    origin and [HDMI-1] (output 2) to its right; output 3 is disconnected.
    Whether RandR is there and what the screen-resources query answers are
    left to the caller. *)
Definition sample_server (randr : bool) (resources : option (list Z)) : x_server :=
  {| XOpenDisplay := Some 1;
     XGetXCBConnection := Some 2;
     DefaultScreen := 0;
     server_screen := sample_screen;
     xcb_intern_atom_reply := fun n => Some (100 + Z.of_nat (String.length n));
     randr_extension_data := Some {| present := randr; first_event := 89 |};
     xfixes_extension_data := Some {| present := true; first_event := 87 |};
     xcb_randr_get_screen_resources_current_reply := resources;
     xcb_randr_get_output_info_reply :=
       fun id =>
         if id =? 1 then
           Some {| connection := 0; reply_crtc := 61; reply_name := "DP-1" |}
         else if id =? 2 then
           Some {| connection := 0; reply_crtc := 62; reply_name := "HDMI-1" |}
         else if id =? 3 then
           Some {| connection := 1; reply_crtc := 0; reply_name := "VGA-1" |}
         else None;
     xcb_randr_get_crtc_info_reply :=
       fun c =>
         if c =? 61 then
           Some {| crtc_x := 0; crtc_y := 0;
                   crtc_width := 1920; crtc_height := 1080 |}
         else if c =? 62 then
           Some {| crtc_x := 1920; crtc_y := 0;
                   crtc_width := 1280; crtc_height := 1024 |}
         else None;
     xcb_generate_id := fun sent => 4194304 + Z.of_nat (List.length sent);
     xcb_request_check := fun _ => None |}.

Definition sample_atoms : x11_atoms_t :=
  snd (x11_init_atoms (sample_server false None)).

Definition sample_backend (randr : bool) (outs : list x11_output_t)
  : x11_backend_data_t :=
  {| xlib_display := 1; xcb_conn := []; screen := sample_screen;
     root_window := 1; screen_number := 0; atoms := sample_atoms;
     has_randr := randr; has_shape := false; has_xfixes := true;
     randr_event_base := 0; outputs := outs;
     output_count := Z.of_nat (List.length outs); initialized := true |}.

Definition sample_output (id px py w h : Z) (n : string) : x11_output_t :=
  {| output_id := id; crtc := 60 + id; x := px; y := py; width := w;
     height := h; output_name := n; surface := None |}.

Definition sample_config (w h : Z) (target : option wl_output)
  : compositor_surface_config_t :=
  {| layer := COMPOSITOR_LAYER_BACKGROUND; anchor := 15; exclusive_zone := -1;
     keyboard_interactivity := false; cfg_width := w; cfg_height := h;
     cfg_output := target |}.

(** The backend the sample server brings up. *)
Definition sample_initialised (randr : bool) (resources : option (list Z))
  : x11_backend_data_t :=
  match fst (x11_backend_init (Some sample_state)
               (sample_server randr resources) []) with
  | Some b => b
  | None => sample_backend randr []
  end.

(** A backend with the two monitors of the sample server, the surface
    created on it with an automatic size, and the backend after that. *)
Definition sample_two_outputs : x11_backend_data_t :=
  sample_backend true [sample_output 2 1920 0 1280 1024 "HDMI-1";
                       sample_output 1 0 0 1920 1080 "DP-1"].

Definition sample_created_backend (config : compositor_surface_config_t)
  : x11_backend_data_t :=
  match snd (fst (x11_create_surface (Some sample_two_outputs) (Some config)
                    (sample_server true None) [])) with
  | Some b => b
  | None => sample_two_outputs
  end.

Definition sample_created_surface (config : compositor_surface_config_t)
  : compositor_surface :=
  match fst (fst (x11_create_surface (Some sample_two_outputs) (Some config)
                    (sample_server true None) [])) with
  | Some s => s
  | None =>
      {| wl_surface := None; egl_window := None; egl_surface := None;
         output := None; surface_width := 0; surface_height := 0; scale := 0;
         config := config; configured := false; committed := false;
         backend_data := {| window := 0; xlib_window := 0; sd_output := None;
                            mapped := false; sd_configured := false |} |}
  end.

(** An output with its surface pointer set. *)
Definition set_surface_of (o : x11_output_t) (s : option xcb_window_t)
  : x11_output_t :=
  {| output_id := output_id o; crtc := crtc o; x := x o; y := y o;
     width := width o; height := height o; output_name := output_name o;
     surface := s |}.

(** A backend whose head output shows the window 4194304, and the surface
    of that window, which points back to this backend. *)
Definition sample_bound_backend : x11_backend_data_t :=
  sample_backend true
    [set_surface_of (sample_output 2 1920 0 1280 1024 "HDMI-1") (Some 4194304);
     sample_output 1 0 0 1920 1080 "DP-1"].

Definition sample_bound_surface : compositor_surface :=
  {| wl_surface := None; egl_window := None; egl_surface := None;
     output := None; surface_width := 1280; surface_height := 1024;
     scale := 1; config := sample_config 0 0 None;
     configured := false; committed := false;
     backend_data := {| window := 4194304; xlib_window := 4194304;
                        sd_output := Some O; mapped := true;
                        sd_configured := true |} |}.

(** The configuration with its target output replaced. *)
Definition with_target (config : compositor_surface_config_t)
    (target : option wl_output) : compositor_surface_config_t :=
  {| layer := layer config; anchor := anchor config;
     exclusive_zone := exclusive_zone config;
     keyboard_interactivity := keyboard_interactivity config;
     cfg_width := cfg_width config; cfg_height := cfg_height config;
     cfg_output := target |}.

(** ** Notions used to state what the code does *)

(** The backend [select_backend] makes from the slot [e] and the data [d]
    that the [init] of the slot returned. *)
Definition backend_of {World backend_data : Type}
    (e : backend_entry World backend_data) (d : backend_data)
  : compositor_backend World backend_data :=
  {| name := entry_name e;
     description := entry_description e;
     priority := entry_priority e;
     ops := Some (entry_ops e);
     data := Some d;
     capabilities := get_capabilities (entry_ops e) d |}.

(** The variable is set and [needle] occurs in its value. *)
Definition contains (v : option string) (needle : string) : Prop :=
  exists s pre post, v = Some s /\ s = (pre ++ needle ++ post)%string.

(** The record the RandR loop of [x11_detect_outputs] makes for the output
    [id] when nothing makes it skip that output. *)
Definition randr_output (srv : x_server) (id : Z) : option x11_output_t :=
  match xcb_randr_get_output_info_reply srv id with
  | None => None
  | Some output_reply =>
      if negb (connection output_reply =? XCB_RANDR_CONNECTION_CONNECTED)
         || (reply_crtc output_reply =? XCB_NONE)
      then None
      else
        match xcb_randr_get_crtc_info_reply srv (reply_crtc output_reply) with
        | None => None
        | Some crtc_reply =>
            Some {| output_id := id;
                    crtc := reply_crtc output_reply;
                    x := crtc_x crtc_reply;
                    y := crtc_y crtc_reply;
                    width := crtc_width crtc_reply;
                    height := crtc_height crtc_reply;
                    output_name := snprintf_s 64 (reply_name output_reply);
                    surface := None |}
        end
  end.

(** Those records for a list of outputs, in the order of the list. *)
Fixpoint randr_outputs (srv : x_server) (ids : list Z) : list x11_output_t :=
  match ids with
  | [] => []
  | id :: rest =>
      match randr_output srv id with
      | Some o => o :: randr_outputs srv rest
      | None => randr_outputs srv rest
      end
  end.

(** An output without its surface pointer. *)
Definition geometry (o : x11_output_t) : Z * Z * Z * Z * Z * Z * string :=
  (output_id o, crtc o, x o, y o, width o, height o, output_name o).

(** Everything of the backend data that no surface operation may touch. *)
Definition backend_frame (b : x11_backend_data_t)
  : Z * xcb_screen_t * xcb_window_t * Z * x11_atoms_t * (bool * bool * bool) *
    Z * list (Z * Z * Z * Z * Z * Z * string) * Z * bool :=
  (xlib_display b, screen b, root_window b, screen_number b, atoms b,
   (has_randr b, has_shape b, has_xfixes b), randr_event_base b,
   map geometry (outputs b), output_count b, initialized b).

(* ======================================================================== *)
(** * Part II. Properties                                                    *)
(* ======================================================================== *)

(** ** The registry *)

Section RegistryFacts.

Context {World backend_data : Type}.
Implicit Types (reg : registry World backend_data)
               (e : backend_entry World backend_data).

Lemma registry_find_app wanted reg reg' :
  registry_find wanted (reg ++ reg') =
  match registry_find wanted reg with
  | Some e => Some e
  | None => registry_find wanted reg'
  end.
Proof.
  induction reg as [|e reg IH]; simpl; [reflexivity|].
  destruct (String.eqb (entry_name e) wanted); [reflexivity | exact IH].
Qed.

Lemma registry_find_name wanted reg e :
  registry_find wanted reg = Some e -> entry_name e = wanted /\ In e reg.
Proof.
  induction reg as [|e' reg IH]; simpl; [discriminate|].
  destruct (String.eqb (entry_name e') wanted) eqn:E.
  - intros [= <-]. apply String.eqb_eq in E. auto.
  - intros H. destruct (IH H). auto.
Qed.

Lemma registry_find_None wanted reg :
  registry_find wanted reg = None <-> ~ In wanted (map entry_name reg).
Proof.
  induction reg as [|e reg IH]; simpl.
  - tauto.
  - destruct (String.eqb (entry_name e) wanted) eqn:E.
    + apply String.eqb_eq in E. split; [discriminate | tauto].
    + apply String.eqb_neq in E. tauto.
Qed.

Lemma registry_find_Some wanted reg :
  In wanted (map entry_name reg) -> exists e, registry_find wanted reg = Some e.
Proof.
  intros Hin. destruct (registry_find wanted reg) eqn:E; [eauto|].
  apply registry_find_None in E. contradiction.
Qed.

Lemma register_shape name description priority ops reg :
  let r := compositor_backend_register name description priority ops reg in
  (register_ok (fst r) = false /\ snd r = reg) \/
  (register_ok (fst r) = true /\
   exists n o, name = Some n /\ ops = Some o /\
     snd r = reg ++ [ {| entry_name := n; entry_description := description;
                         entry_priority := priority; entry_ops := o |} ]).
Proof.
  unfold compositor_backend_register.
  destruct (MAX_BACKENDS <=? backend_count reg)%nat;
    [left; split; reflexivity|].
  destruct name as [n|]; [|left; split; reflexivity].
  destruct ops as [o|]; [|left; split; reflexivity].
  destruct (registry_find n reg); [left; split; reflexivity|].
  right. split; [reflexivity|]. exists n, o. repeat split.
Qed.

Lemma register_extends name description priority ops reg :
  exists suffix,
    snd (compositor_backend_register name description priority ops reg)
    = reg ++ suffix.
Proof.
  destruct (register_shape name description priority ops reg)
    as [[_ H]|[_ (n & o & _ & _ & H)]]; rewrite H.
  - exists []. symmetry. apply app_nil_r.
  - eauto.
Qed.

Lemma register_all_extends calls : forall reg,
  exists suffix, register_all calls reg = reg ++ suffix.
Proof.
  induction calls as [|c calls IH]; intros reg; simpl.
  - exists []. symmetry. apply app_nil_r.
  - destruct (register_extends (reg_name c) (reg_description c)
                (reg_priority c) (reg_ops c) reg) as [s1 H1].
    destruct (IH (reg ++ s1)) as [s2 H2].
    exists (s1 ++ s2).
    change (register_all calls
              (snd (compositor_backend_register (reg_name c)
                      (reg_description c) (reg_priority c) (reg_ops c) reg))
            = reg ++ s1 ++ s2).
    rewrite H1, H2. symmetry. apply app_assoc.
Qed.

Lemma register_bounded name description priority ops reg :
  (backend_count reg <= MAX_BACKENDS)%nat ->
  (backend_count
     (snd (compositor_backend_register name description priority ops reg))
   <= MAX_BACKENDS)%nat.
Proof.
  intros Hle. unfold compositor_backend_register.
  destruct (MAX_BACKENDS <=? backend_count reg)%nat eqn:Full; [exact Hle|].
  apply Nat.leb_gt in Full.
  destruct name as [n|]; [|exact Hle].
  destruct ops as [o|]; [|exact Hle].
  destruct (registry_find n reg); [exact Hle|].
  simpl. unfold backend_count in *. rewrite length_app. simpl. lia.
Qed.

End RegistryFacts.

(** C5, as the code has it.  [compositor_backend_register] tests, in this
    order: a table at capacity ([RegistryFull]); a null name or a null
    operation table ([InvalidArgument]); a name already in the table
    ([DuplicateName]).  Each of the three leaves the table as it was.
    Otherwise, for every name that is not null, the empty one included, the
    descriptor made of the four arguments is appended and the call
    succeeds. *)
Theorem compositor_backend_register_outcomes
    {World backend_data : Type} (name description : option string)
    (priority : Z) (ops : option (compositor_backend_ops_t World backend_data))
    (reg : registry World backend_data) :
  let r := compositor_backend_register name description priority ops reg in
  ((MAX_BACKENDS <= backend_count reg)%nat -> r = (RegistryFull, reg)) /\
  ((backend_count reg < MAX_BACKENDS)%nat ->
   name = None \/ ops = None -> r = (InvalidArgument, reg)) /\
  (forall n o,
     (backend_count reg < MAX_BACKENDS)%nat -> name = Some n -> ops = Some o ->
     In n (map entry_name reg) -> r = (DuplicateName, reg)) /\
  (forall n o,
     (backend_count reg < MAX_BACKENDS)%nat -> name = Some n -> ops = Some o ->
     ~ In n (map entry_name reg) ->
     r = (Registered,
          reg ++ [ {| entry_name := n; entry_description := description;
                      entry_priority := priority; entry_ops := o |} ]) /\
     register_ok (fst r) = true).
Proof.
  unfold compositor_backend_register.
  split; [|split; [|split]].
  - intros Full. apply Nat.leb_le in Full. rewrite Full. reflexivity.
  - intros Room Null. apply Nat.leb_gt in Room. rewrite Room.
    destruct Null as [-> | ->]; [reflexivity|]. destruct name; reflexivity.
  - intros n o Room -> -> Dup. apply Nat.leb_gt in Room. rewrite Room.
    destruct (registry_find_Some n reg Dup) as [e ->]. reflexivity.
  - intros n o Room -> -> Fresh. apply Nat.leb_gt in Room. rewrite Room.
    apply registry_find_None in Fresh. rewrite Fresh. split; reflexivity.
Qed.

Lemma compositor_backend_register_outcomes_witness :
  compositor_backend_register (Some "x11") None 50 (Some (sample_ops true))
    sample_full_registry = (RegistryFull, sample_full_registry) /\
  compositor_backend_register None None 50 (Some (sample_ops true))
    [sample_entry "fallback" 10 true]
  = (InvalidArgument, [sample_entry "fallback" 10 true]) /\
  compositor_backend_register (Some "fallback") None 50 (Some (sample_ops false))
    [sample_entry "fallback" 10 true]
  = (DuplicateName, [sample_entry "fallback" 10 true]) /\
  compositor_backend_register (Some "x11") None 50 (Some (sample_ops true))
    [sample_entry "fallback" 10 true]
  = (Registered, [sample_entry "fallback" 10 true; sample_entry "x11" 50 true]).
Proof.
  split; [|split; [|split]].
  - apply (compositor_backend_register_outcomes
             (Some "x11") None 50 (Some (sample_ops true)) sample_full_registry).
    vm_compute. lia.
  - apply (compositor_backend_register_outcomes
             None None 50 (Some (sample_ops true))
             [sample_entry "fallback" 10 true]).
    + vm_compute. lia.
    + left. reflexivity.
  - apply (proj1 (proj2 (proj2
             (compositor_backend_register_outcomes
                (Some "fallback") None 50 (Some (sample_ops false))
                [sample_entry "fallback" 10 true])))
             "fallback" (sample_ops false)).
    + vm_compute. lia.
    + reflexivity.
    + reflexivity.
    + simpl. left. reflexivity.
  - refine (proj1 (proj2 (proj2 (proj2
             (compositor_backend_register_outcomes
                (Some "x11") None 50 (Some (sample_ops true))
                [sample_entry "fallback" 10 true])))
             "x11" (sample_ops true) _ _ _ _)).
    + vm_compute. lia.
    + reflexivity.
    + reflexivity.
    + simpl. intros [H|[]]. discriminate H.
Defined.

(** C5, as the design document has it, fails: a name that is empty but not
    null is registered like any other name. *)
Lemma compositor_backend_register_empty_name :
  compositor_backend_register (Some "") None 0 (Some (sample_ops true)) []
  = (Registered, [sample_entry "" 0 true]) /\
  register_ok
    (fst (compositor_backend_register (Some "") None 0
            (Some (sample_ops true)) [])) = true /\
  ~ empty_name_is_invalid.
Proof.
  split; [reflexivity|]. split; [reflexivity|].
  intros H. specialize (H [] (sample_ops true) None 0). discriminate H.
Qed.

(** C6.  One call of [compositor_backend_register] either appends exactly
    one descriptor at the end of the table and succeeds, or fails and leaves
    the table as it was.  A call on a table at capacity fails and keeps the
    count.  A name that is already looked up to a descriptor makes the call
    fail, and every lookup that found a descriptor before the call finds the
    same one after it.  Every slot keeps its descriptor, after one call and
    after any run of calls, and a table within the bound stays within it. *)
Theorem registry_append_only
    {World backend_data : Type} (name description : option string)
    (priority : Z) (ops : option (compositor_backend_ops_t World backend_data))
    (reg : registry World backend_data) :
  let r := compositor_backend_register name description priority ops reg in
  ((register_ok (fst r) = true /\ exists e, snd r = reg ++ [e]) \/
   (register_ok (fst r) = false /\ snd r = reg)) /\
  ((MAX_BACKENDS <= backend_count reg)%nat ->
   fst r = RegistryFull /\ backend_count (snd r) = backend_count reg) /\
  (forall n first,
     name = Some n -> registry_find n reg = Some first ->
     register_ok (fst r) = false /\ snd r = reg) /\
  (forall wanted e,
     registry_find wanted reg = Some e -> registry_find wanted (snd r) = Some e) /\
  (forall i e, nth_error reg i = Some e -> nth_error (snd r) i = Some e) /\
  (forall calls i e,
     nth_error reg i = Some e -> nth_error (register_all calls reg) i = Some e) /\
  ((backend_count reg <= MAX_BACKENDS)%nat ->
   (backend_count (snd r) <= MAX_BACKENDS)%nat).
Proof.
  cbv zeta.
  pose proof (register_shape name description priority ops reg) as Shape.
  cbv zeta in Shape.
  split; [|split; [|split; [|split; [|split; [|split]]]]].
  - destruct Shape as [[Hf Hs]|[Ht (n & o & _ & _ & Hs)]]; [right|left]; eauto.
  - intros Full. unfold compositor_backend_register.
    apply Nat.leb_le in Full. rewrite Full. split; reflexivity.
  - intros n first -> Hfind. unfold compositor_backend_register.
    destruct (MAX_BACKENDS <=? backend_count reg)%nat; [split; reflexivity|].
    destruct ops; [|split; reflexivity].
    rewrite Hfind. split; reflexivity.
  - intros wanted e Hfind.
    destruct (register_extends name description priority ops reg) as [s ->].
    rewrite registry_find_app, Hfind. reflexivity.
  - intros i e Hnth.
    destruct (register_extends name description priority ops reg) as [s ->].
    rewrite nth_error_app1; [exact Hnth|].
    apply nth_error_Some. congruence.
  - intros calls i e Hnth.
    destruct (register_all_extends calls reg) as [s ->].
    rewrite nth_error_app1; [exact Hnth|].
    apply nth_error_Some. congruence.
  - apply register_bounded.
Qed.

Lemma registry_append_only_witness :
  registry_find "fallback"
    (snd (compositor_backend_register (Some "fallback") None 99
            (Some (sample_ops false)) [sample_entry "fallback" 10 true]))
  = Some (sample_entry "fallback" 10 true) /\
  backend_count
    (snd (compositor_backend_register (Some "x11") None 50
            (Some (sample_ops true)) sample_full_registry))
  = backend_count sample_full_registry.
Proof.
  split.
  - apply (registry_append_only (Some "fallback") None 99
             (Some (sample_ops false)) [sample_entry "fallback" 10 true]).
    reflexivity.
  - apply (registry_append_only (Some "x11") None 50
             (Some (sample_ops true)) sample_full_registry).
    vm_compute. lia.
Defined.

(** ** The selector *)

Section SelectorFacts.

Context {World backend_data : Type}.
Variable calloc : World -> bool * World.
Implicit Types (reg : registry World backend_data)
               (e : backend_entry World backend_data)
               (w : World).

(** A loop of [select_backend] is a lookup followed by the body on the
    slot found. *)
Lemma try_backend_find wanted reg state w :
  try_backend calloc wanted reg state w =
  match registry_find wanted reg with
  | Some e => init_entry calloc e state w
  | None => (Unavailable, w)
  end.
Proof.
  induction reg as [|e reg IH]; simpl; [reflexivity|].
  destruct (String.eqb (entry_name e) wanted); [reflexivity | exact IH].
Qed.

Lemma init_entry_failed e state w :
  fst (init (entry_ops e) state w) = None ->
  init_entry calloc e state w = (Unavailable, snd (init (entry_ops e) state w)).
Proof.
  unfold init_entry. destruct (init (entry_ops e) state w) as [[d|] w1]; simpl.
  - discriminate.
  - reflexivity.
Qed.



Lemma try_backend_failed wanted reg state w :
  (forall e, registry_find wanted reg = Some e ->
             forall w', fst (init (entry_ops e) state w') = None) ->
  fst (try_backend calloc wanted reg state w) = Unavailable.
Proof.
  intros Hfail. rewrite try_backend_find.
  destruct (registry_find wanted reg) as [e|] eqn:Hfind; [|reflexivity].
  rewrite init_entry_failed by (apply Hfail; reflexivity). reflexivity.
Qed.


Lemma init_entry_cases e state w :
  init_entry calloc e state w =
  match init (entry_ops e) state w with
  | (None, w1) => (Unavailable, w1)
  | (Some d, w1) =>
      if fst (calloc w1) then (Selected (backend_of e d), snd (calloc w1))
      else (AllocFailed, cleanup (entry_ops e) d (snd (calloc w1)))
  end.
Proof.
  unfold init_entry. destruct (init (entry_ops e) state w) as [[d|] w1];
    [|reflexivity].
  destruct (calloc w1) as [[|] w2]; reflexivity.
Qed.

Lemma lookup_registry_find wanted reg : lookup wanted reg = registry_find wanted reg.
Proof.
  unfold lookup. induction reg as [|e reg IH]; simpl; [reflexivity|].
  destruct (String.eqb (entry_name e) wanted); [reflexivity | exact IH].
Qed.

(** One loop of [select_backend] when the name is registered and its [init]
    returns data. *)
Lemma try_backend_initialised wanted reg state w e d w1 :
  lookup wanted reg = Some e ->
  init (entry_ops e) state w = (Some d, w1) ->
  try_backend calloc wanted reg state w =
  if fst (calloc w1) then (Selected (backend_of e d), snd (calloc w1))
  else (AllocFailed, cleanup (entry_ops e) d (snd (calloc w1))).
Proof.
  intros Hfind Hinit. rewrite lookup_registry_find in Hfind.
  rewrite try_backend_find, Hfind, init_entry_cases, Hinit. reflexivity.
Qed.

(** One loop of [select_backend] when the name is not registered or its
    [init] returns null. *)
Lemma try_backend_unavailable wanted reg state w :
  unavailable wanted reg state w ->
  try_backend calloc wanted reg state w
  = (Unavailable, world_after_attempt wanted reg state w).
Proof.
  unfold unavailable, world_after_attempt.
  rewrite try_backend_find, !lookup_registry_find.
  intros [-> | (e & -> & Hinit)]; [reflexivity|].
  rewrite init_entry_failed by exact Hinit. reflexivity.
Qed.

(** [select_backend] once the preferred backend is out of the way. *)
Lemma select_backend_after_failure state info reg w :
  unavailable (preferred_backend info) reg state w ->
  select_backend calloc state info reg w =
  let w1 := world_after_attempt (preferred_backend info) reg state w in
  if String.eqb (preferred_backend info) "fallback" then (None, w1)
  else match try_backend calloc "fallback" reg state w1 with
       | (Selected backend, w2) => (Some backend, w2)
       | (_, w2) => (None, w2)
       end.
Proof.
  intros Hun. unfold select_backend.
  rewrite (try_backend_unavailable _ _ _ _ Hun). cbv zeta.
  destruct (String.eqb (preferred_backend info) "fallback"); reflexivity.
Qed.

Lemma always_null_unavailable wanted reg state :
  (forall e, lookup wanted reg = Some e ->
             forall w', fst (init (entry_ops e) state w') = None) ->
  forall w, unavailable wanted reg state w.
Proof.
  intros Hfail w. unfold unavailable.
  destruct (lookup wanted reg) as [e|] eqn:Hfind; [right | left; reflexivity].
  exists e. split; [reflexivity | apply Hfail; reflexivity].
Qed.

(** C1.  Let [init] of the backend registered under the preferred name
    return null whenever it is called (which covers a preferred name that
    is not registered), and let [w1] be the world that failed attempt
    leaves.  Then, as long as the allocation of the backend instance does
    not fail, [select_backend] returns what selecting "fallback" directly
    returns in [w1], selecting directly being the lookup, [init],
    [get_capabilities] and wrapping of the design document.  In
    particular, if "fallback" is registered and its [init] returns data in
    [w1], the backend returned is the one made of that descriptor, that
    data and the capabilities reported for it; if the allocation of the
    instance fails instead, the data is cleaned up and null is returned.
    And when "fallback" is not registered, or its [init] returns null in
    [w1], [select_backend] returns null. *)
Theorem select_backend_falls_back state info reg w :
  (forall e, lookup (preferred_backend info) reg = Some e ->
             forall w', fst (init (entry_ops e) state w') = None) ->
  let w1 := world_after_attempt (preferred_backend info) reg state w in
  ((forall w', fst (calloc w') = true) ->
   fst (select_backend calloc state info reg w)
   = select_directly "fallback" reg state w1) /\
  (forall e d w2,
     lookup "fallback" reg = Some e ->
     init (entry_ops e) state w1 = (Some d, w2) ->
     (fst (calloc w2) = true ->
      select_backend calloc state info reg w
      = (Some {| name := "fallback";
                 description := entry_description e;
                 priority := entry_priority e;
                 ops := Some (entry_ops e);
                 data := Some d;
                 capabilities := get_capabilities (entry_ops e) d |},
         snd (calloc w2))) /\
     (fst (calloc w2) = false ->
      select_backend calloc state info reg w
      = (None, cleanup (entry_ops e) d (snd (calloc w2))))) /\
  (unavailable "fallback" reg state w1 ->
   fst (select_backend calloc state info reg w) = None).
Proof.
  intros Hfail w1.
  pose proof (always_null_unavailable _ _ _ Hfail) as Hun.
  pose proof (select_backend_after_failure state info reg w (Hun w)) as Hsel.
  cbv zeta in Hsel. fold w1 in Hsel.
  assert (Hsame : String.eqb (preferred_backend info) "fallback" = true ->
                  unavailable "fallback" reg state w1).
  { intros Heq. apply String.eqb_eq in Heq. rewrite <- Heq. apply Hun. }
  split; [|split].
  - intros Halloc. rewrite Hsel. unfold select_directly.
    destruct (String.eqb (preferred_backend info) "fallback") eqn:Heq.
    + destruct (Hsame eq_refl) as [-> | (e & -> & ->)]; reflexivity.
    + destruct (lookup "fallback" reg) as [e|] eqn:Hfind.
      * destruct (init (entry_ops e) state w1) as [[d|] w2] eqn:Hinit.
        -- rewrite (try_backend_initialised _ _ _ _ _ _ _ Hfind Hinit).
           rewrite Halloc. reflexivity.
        -- rewrite try_backend_unavailable; [reflexivity|].
           right. exists e. rewrite Hinit. auto.
      * rewrite try_backend_unavailable; [reflexivity | left; exact Hfind].
  - intros e d w2 Hfind Hinit.
    assert (Hname : entry_name e = "fallback"%string).
    { rewrite lookup_registry_find in Hfind.
      apply registry_find_name in Hfind. tauto. }
    assert (Hneq : String.eqb (preferred_backend info) "fallback" = false).
    { destruct (String.eqb (preferred_backend info) "fallback") eqn:Heq;
        [|reflexivity].
      destruct (Hsame eq_refl) as [Hnone | (e' & He' & Hnull)].
      - congruence.
      - rewrite Hfind in He'. injection He' as <-.
        rewrite Hinit in Hnull. discriminate Hnull. }
    rewrite Hsel, Hneq.
    rewrite (try_backend_initialised _ _ _ _ _ _ _ Hfind Hinit).
    unfold backend_of. rewrite Hname.
    split; intros ->; reflexivity.
  - intros Hfb. rewrite Hsel.
    destruct (String.eqb (preferred_backend info) "fallback"); [reflexivity|].
    rewrite (try_backend_unavailable _ _ _ _ Hfb). reflexivity.
Qed.


End SelectorFacts.

Lemma select_backend_falls_back_witness :
  select_backend sample_calloc sample_state
    (sample_info COMPOSITOR_TYPE_HYPRLAND true)
    [sample_entry "wlr-layer-shell" 100 false; sample_entry "fallback" 10 true]
    tt
  = (Some {| name := "fallback"; description := None; priority := 10;
             ops := Some (sample_ops true); data := Some 7%nat;
             capabilities := COMPOSITOR_CAP_LAYER_SHELL |}, tt) /\
  fst (select_backend sample_calloc sample_state
         (sample_info COMPOSITOR_TYPE_HYPRLAND true)
         [sample_entry "wlr-layer-shell" 100 false;
          sample_entry "fallback" 10 true] tt)
  = select_directly "fallback"
      [sample_entry "wlr-layer-shell" 100 false; sample_entry "fallback" 10 true]
      sample_state tt.
Proof.
  assert (Hfail : forall e,
             lookup (preferred_backend (sample_info COMPOSITOR_TYPE_HYPRLAND true))
               [sample_entry "wlr-layer-shell" 100 false;
                sample_entry "fallback" 10 true] = Some e ->
             forall w' : unit, fst (init (entry_ops e) sample_state w') = None).
  { intros e He w'. vm_compute in He. injection He as <-. reflexivity. }
  split.
  - refine (proj1 (proj1 (proj2 (select_backend_falls_back sample_calloc
                      sample_state (sample_info COMPOSITOR_TYPE_HYPRLAND true)
                      [sample_entry "wlr-layer-shell" 100 false;
                       sample_entry "fallback" 10 true] tt Hfail))
                    (sample_entry "fallback" 10 true) 7%nat tt _ _) _);
      reflexivity.
  - refine (proj1 (select_backend_falls_back sample_calloc
                     sample_state (sample_info COMPOSITOR_TYPE_HYPRLAND true)
                     [sample_entry "wlr-layer-shell" 100 false;
                      sample_entry "fallback" 10 true] tt Hfail) _).
    intros w'. reflexivity.
Defined.



(** ** The classifier *)

Ltac split_env_tests :=
  repeat match goal with
         | |- context [hint ?v ?needle] => destruct (hint v needle); simpl
         | |- context [non_null ?p] => destruct (non_null p); simpl
         end.

(** [detect_compositor_type] in terms of what the environment names and
    what the protocols indicate. *)
Lemma detect_compositor_type_split getenv proto :
  detect_compositor_type getenv proto =
  match environment_identity getenv with
  | Some t => if shell_flag_outranks t proto then protocol_identity proto else t
  | None => protocol_identity proto
  end.
Proof.
  unfold detect_compositor_type, environment_identity, protocol_identity.
  cbv zeta. split_env_tests; try reflexivity;
    destruct (proto_kde_shell proto); simpl; try reflexivity;
    destruct (proto_gtk_shell proto); simpl; try reflexivity;
    destruct (proto_layer_shell proto); reflexivity.
Qed.




(** C7.  With the layer-shell flag set, neither shell flag set and no
    environment variable naming a compositor ([SWAYSOCK] included), the
    classifier answers the generic wlroots identity. *)
Theorem detect_compositor_type_generic getenv proto :
  environment_identity getenv = None ->
  proto_layer_shell proto = true ->
  proto_kde_shell proto = false ->
  proto_gtk_shell proto = false ->
  detect_compositor_type getenv proto = COMPOSITOR_TYPE_GENERIC.
Proof.
  intros Henv Hlayer Hkde Hgtk.
  rewrite detect_compositor_type_split, Henv.
  unfold protocol_identity. rewrite Hkde, Hgtk, Hlayer. reflexivity.
Qed.

Lemma detect_compositor_type_generic_witness :
  detect_compositor_type (env_of [("HOME", "/root"); ("XDG_SESSION_DESKTOP", "labwc")])
    (sample_proto true false false)
  = COMPOSITOR_TYPE_GENERIC.
Proof.
  apply (detect_compositor_type_generic
           (env_of [("HOME", "/root"); ("XDG_SESSION_DESKTOP", "labwc")])
           (sample_proto true false false));
    reflexivity.
Defined.

(** ** The public entry points *)

(** C10.  [compositor_backend_init] returns null, with the table and the
    world as they were, when the state is null and when the display of the
    state is null; [compositor_backend_cleanup] of a null backend leaves the
    world as it was; [compositor_backend_get_capabilities] of a null backend
    is the empty mask. *)
Theorem backend_entry_points_null_tolerant
    {World backend_data : Type} (calloc : World -> bool * World)
    (wlr kde gnome fallback :
       neowall_state -> registry World backend_data * World ->
       registry World backend_data * World)
    (HAVE_X11 : bool) (x11_backend_ops : compositor_backend_ops_t World backend_data)
    (getenv : environ) (reg : registry World backend_data) (w : World) :
  compositor_backend_init calloc wlr kde gnome fallback HAVE_X11 x11_backend_ops
    getenv None reg w = (None, reg, w) /\
  compositor_backend_init calloc wlr kde gnome fallback HAVE_X11 x11_backend_ops
    getenv (Some {| display := None |}) reg w = (None, reg, w) /\
  @compositor_backend_cleanup World backend_data None w = w /\
  @compositor_backend_get_capabilities World backend_data None
  = COMPOSITOR_CAP_NONE /\
  COMPOSITOR_CAP_NONE = 0.
Proof.
  repeat split.
Qed.

(** ** The X11 backend: output detection *)

Lemma detect_one_output_skips srv id acc :
  xcb_randr_get_output_info_reply srv id = None \/
  (exists r, xcb_randr_get_output_info_reply srv id = Some r /\
             (connection r <> XCB_RANDR_CONNECTION_CONNECTED \/
              reply_crtc r = XCB_NONE \/
              xcb_randr_get_crtc_info_reply srv (reply_crtc r) = None)) ->
  detect_one_output srv id acc = acc.
Proof.
  destruct acc as [[outs count] h]. unfold detect_one_output.
  intros [-> | (r & -> & Hskip)]; [reflexivity|].
  destruct Hskip as [Hc | [Hn | Hcrtc]].
  - apply Z.eqb_neq in Hc. rewrite Hc. reflexivity.
  - apply Z.eqb_eq in Hn. rewrite Hn, orb_true_r. reflexivity.
  - rewrite Hcrtc.
    destruct (negb (connection r =? XCB_RANDR_CONNECTION_CONNECTED)
              || (reply_crtc r =? XCB_NONE)); reflexivity.
Qed.

Lemma detect_one_output_query_fails srv id acc :
  query_fails srv id -> detect_one_output srv id acc = acc.
Proof.
  intros [Hinfo | (r & Hinfo & Hcrtc)]; apply detect_one_output_skips.
  - left. exact Hinfo.
  - right. exists r. auto.
Qed.

Lemma detect_loop_with_resources srv resources ids : forall acc,
  fold_left (fun acc id => detect_one_output (with_resources srv resources) id acc)
            ids acc
  = fold_left (fun acc id => detect_one_output srv id acc) ids acc.
Proof.
  induction ids as [|id ids IH]; intros acc; [reflexivity|].
  cbn [fold_left]. rewrite IH. reflexivity.
Qed.

Lemma detect_loop_all_fail srv ids : forall acc,
  (forall id, In id ids -> query_fails srv id) ->
  fold_left (fun acc id => detect_one_output srv id acc) ids acc = acc.
Proof.
  induction ids as [|id ids IH]; intros acc Hall; [reflexivity|].
  cbn [fold_left].
  rewrite detect_one_output_query_fails by (apply Hall; left; reflexivity).
  apply IH. intros id' Hin. apply Hall. right. exact Hin.
Qed.

(** C2, as the code has it.  The single synthetic output, covering the
    whole screen, is what [x11_detect_outputs] produces when RandR is
    absent, and detection then fails only if the record cannot be
    allocated.  With RandR present, no reply to the screen-resources query
    makes detection fail with the backend untouched, and so does a reply
    that lists no output; [x11_backend_init] then returns null.  A failed
    query about one output makes detection go on as if that output had not
    been listed; so when the queries about all the outputs listed fail,
    detection fails and [x11_backend_init] returns null as well. *)
Theorem x11_detect_outputs_policy backend srv h :
  (has_randr backend = false -> fst (x11_calloc h) = true ->
   x11_detect_outputs backend srv h =
     (true, set_outputs backend [synthetic_output backend] 1,
      snd (x11_calloc h))) /\
  (has_randr backend = true ->
   xcb_randr_get_screen_resources_current_reply srv = None ->
   x11_detect_outputs backend srv h = (false, backend, h)) /\
  (has_randr backend = true ->
   xcb_randr_get_screen_resources_current_reply srv = Some [] ->
   x11_detect_outputs backend srv h = (false, x11_free_outputs backend, h)) /\
  (forall state,
     extension_present (randr_extension_data srv) = true ->
     xcb_randr_get_screen_resources_current_reply srv = None \/
     xcb_randr_get_screen_resources_current_reply srv = Some [] ->
     fst (x11_backend_init state srv h) = None) /\
  (forall before id after,
     has_randr backend = true ->
     query_fails srv id ->
     x11_detect_outputs backend
       (with_resources srv (Some (before ++ id :: after))) h
     = x11_detect_outputs backend
         (with_resources srv (Some (before ++ after))) h) /\
  (forall ids,
     has_randr backend = true ->
     xcb_randr_get_screen_resources_current_reply srv = Some ids ->
     (forall id, In id ids -> query_fails srv id) ->
     x11_detect_outputs backend srv h = (false, x11_free_outputs backend, h)) /\
  (forall state ids,
     extension_present (randr_extension_data srv) = true ->
     xcb_randr_get_screen_resources_current_reply srv = Some ids ->
     (forall id, In id ids -> query_fails srv id) ->
     fst (x11_backend_init state srv h) = None).
Proof.
  split; [|split; [|split; [|split; [|split; [|split]]]]].
  - intros Hr Halloc. unfold x11_detect_outputs. rewrite Hr. simpl.
    destruct (x11_calloc h) as [ok h']. simpl in *. subst ok. reflexivity.
  - intros Hr Hreply. unfold x11_detect_outputs. rewrite Hr, Hreply.
    reflexivity.
  - intros Hr Hreply. unfold x11_detect_outputs. rewrite Hr, Hreply.
    reflexivity.
  - intros state Hext Hreply. unfold x11_backend_init.
    destruct state as [st|]; [|reflexivity].
    destruct (x11_calloc h) as [[|] h1]; [|reflexivity]. simpl.
    destruct (XOpenDisplay srv); [|reflexivity].
    destruct (XGetXCBConnection srv); [|reflexivity].
    unfold x11_init_atoms. cbv zeta. cbn [net_wm_window_type_desktop].
    destruct (x11_get_atom srv "_NET_WM_WINDOW_TYPE_DESKTOP" =? XCB_ATOM_NONE);
      [reflexivity|].
    cbn [negb]. rewrite Hext. unfold x11_detect_outputs. cbn [has_randr negb].
    destruct Hreply as [-> | ->]; reflexivity.
  - intros before id after Hr Hfail. unfold x11_detect_outputs.
    rewrite Hr. cbn [negb with_resources
                     xcb_randr_get_screen_resources_current_reply].
    rewrite !detect_loop_with_resources, !fold_left_app. cbn [fold_left].
    rewrite (detect_one_output_query_fails srv id _ Hfail). reflexivity.
  - intros ids Hr Hreply Hall. unfold x11_detect_outputs.
    rewrite Hr, Hreply. cbn [negb].
    rewrite (detect_loop_all_fail srv ids _ Hall). reflexivity.
  - intros state ids Hext Hreply Hall. unfold x11_backend_init.
    destruct state as [st|]; [|reflexivity].
    destruct (x11_calloc h) as [[|] h1]; [|reflexivity]. simpl.
    destruct (XOpenDisplay srv); [|reflexivity].
    destruct (XGetXCBConnection srv); [|reflexivity].
    unfold x11_init_atoms. cbv zeta. cbn [net_wm_window_type_desktop].
    destruct (x11_get_atom srv "_NET_WM_WINDOW_TYPE_DESKTOP" =? XCB_ATOM_NONE);
      [reflexivity|].
    cbn [negb]. rewrite Hext. unfold x11_detect_outputs.
    cbn [has_randr negb]. rewrite Hreply.
    rewrite (detect_loop_all_fail srv ids _ Hall). reflexivity.
Qed.

Lemma x11_detect_outputs_policy_witness :
  x11_detect_outputs (sample_backend false []) (sample_server false None) []
  = (true,
     set_outputs (sample_backend false [])
       [synthetic_output (sample_backend false [])] 1,
     []) /\
  x11_detect_outputs (sample_backend true []) (sample_server true None) []
  = (false, sample_backend true [], []) /\
  fst (x11_backend_init (Some sample_state) (sample_server true None) []) = None /\
  x11_detect_outputs (sample_backend true [])
    (with_resources (sample_server true None) (Some ([1] ++ 4 :: [2]))) []
  = x11_detect_outputs (sample_backend true [])
      (with_resources (sample_server true None) (Some ([1] ++ [2]))) [] /\
  fst (x11_backend_init (Some sample_state) (sample_server true (Some [4])) [])
  = None.
Proof.
  split; [|split; [|split; [|split]]].
  - apply (x11_detect_outputs_policy
             (sample_backend false []) (sample_server false None) []);
      reflexivity.
  - refine (proj1 (proj2 (x11_detect_outputs_policy
                            (sample_backend true []) (sample_server true None) []))
                  _ _);
      reflexivity.
  - refine (proj1 (proj2 (proj2 (proj2 (x11_detect_outputs_policy
                            (sample_backend true []) (sample_server true None) []))))
                  (Some sample_state) _ _).
    + reflexivity.
    + left. reflexivity.
  - refine (proj1 (proj2 (proj2 (proj2 (proj2 (x11_detect_outputs_policy
                            (sample_backend true []) (sample_server true None) [])))))
                  [1] 4 [2] _ _).
    + reflexivity.
    + left. reflexivity.
  - refine (proj2 (proj2 (proj2 (proj2 (proj2 (proj2 (x11_detect_outputs_policy
                            (sample_backend true [])
                            (sample_server true (Some [4])) []))))))
                  (Some sample_state) [4] _ _ _).
    + reflexivity.
    + reflexivity.
    + intros id [<-|[]]. left. reflexivity.
Defined.

(** C2, as the design document has it, fails: RandR is present and the
    screen-resources query gets no reply; detection reports failure, the
    backend has no output, and [x11_backend_init] returns null, although
    the same server without RandR brings the backend up on one synthetic
    output. *)
Lemma randr_failure_is_fatal :
  x11_detect_outputs (sample_backend true []) (sample_server true None) []
  = (false, sample_backend true [], []) /\
  x11_backend_init (Some sample_state) (sample_server true None) [] = (None, []) /\
  (exists b,
     x11_backend_init (Some sample_state) (sample_server false None) []
     = (Some b, []) /\
     outputs b = [synthetic_output b]) /\
  ~ randr_failure_degrades.
Proof.
  split; [reflexivity|]. split; [reflexivity|]. split.
  - eexists. split; reflexivity.
  - intros H.
    specialize (H (sample_backend true []) (sample_server true None)
                  eq_refl eq_refl).
    discriminate H.
Qed.

(** The list of outputs is built by pushing at the head: of the two
    monitors of the sample server, the one enumerated last comes first. *)
Example x11_detect_outputs_order :
  map output_name
    (outputs (snd (fst (x11_detect_outputs (sample_backend true [])
                          (sample_server true (Some [1; 2; 3])) []))))
  = ["HDMI-1"; "DP-1"].
Proof. reflexivity. Qed.

(** ** The X11 backend: surfaces *)

Lemma In_send_new backend req : In req (xcb_conn (send backend req)).
Proof. simpl. apply in_or_app. right. left. reflexivity. Qed.

Lemma In_send_old backend req req' :
  In req (xcb_conn backend) -> In req (xcb_conn (send backend req')).
Proof. intros H. simpl. apply in_or_app. left. exact H. Qed.

Create HintDb x11.
#[local] Hint Resolve In_send_new In_send_old : x11.

(** What [x11_create_desktop_window] has done when it returns a window:
    the request that created it carries the geometry asked for, and the
    outputs of the backend are as they were. *)
Lemma x11_create_desktop_window_sent backend srv px py w h win backend' :
  x11_create_desktop_window backend srv px py w h = (win, backend') ->
  outputs backend' = outputs backend /\
  output_count backend' = output_count backend /\
  (win <> XCB_WINDOW_NONE ->
   exists visual value_mask value_list,
     In (xcb_create_window_checked win (root_window backend) px py w h
           visual value_mask value_list)
        (xcb_conn backend')).
Proof.
  unfold x11_create_desktop_window. cbv zeta.
  match goal with
  | |- context [xcb_request_check srv ?r] =>
      destruct (xcb_request_check srv r) as [err|]
  end.
  - intros [= <- <-]. split; [reflexivity|]. split; [reflexivity|].
    intros Hne. contradiction Hne. reflexivity.
  - destruct (has_xfixes backend) eqn:Hx; cbn [has_xfixes send]; rewrite ?Hx;
      intros [= <- <-]; (split; [reflexivity|]); (split; [reflexivity|]);
      intros _; do 3 eexists; auto 12 with x11.
Qed.

(** C8.  [x11_configure_surface] on a surface and a configuration succeeds
    and leaves the surface at the width and height of the configuration,
    with the configuration stored.  Called again with the same
    configuration it succeeds again, returns the very same surface, and
    sends nothing but the flush: no resize request goes out. *)
Theorem x11_configure_surface_idempotent backend s cfg :
  exists backend1 s1,
    x11_configure_surface backend (Some s) (Some cfg)
    = (true, backend1, Some s1) /\
    surface_width s1 = cfg_width cfg /\
    surface_height s1 = cfg_height cfg /\
    config s1 = cfg /\
    x11_configure_surface backend1 (Some s1) (Some cfg)
    = (true, send backend1 xcb_flush, Some s1).
Proof.
  unfold x11_configure_surface. cbv zeta.
  do 2 eexists. split; [reflexivity|]. cbn [surface_width surface_height config].
  destruct (cfg_width cfg =? surface_width s) eqn:Hw;
    destruct (cfg_height cfg =? surface_height s) eqn:Hh; cbn [negb orb];
    rewrite ?Z.eqb_refl; cbn [negb orb];
    try (apply Z.eqb_eq in Hw); try (apply Z.eqb_eq in Hh);
    rewrite ?Hw, ?Hh, ?Z.eqb_refl; cbn [negb orb];
    repeat split; reflexivity.
Qed.

(** C9.  [x11_create_surface] returns null on a backend with no output.
    A surface it returns belongs to the output at the head of the list of
    the backend: the window is created at the position of that output, its
    width is the width of the configuration if that is positive and the
    width of the output otherwise (either one narrowed to sixteen bits),
    likewise its height, and the surface records those dimensions.  The
    target output of the configuration is stored in the surface and plays
    no other part: with another target the backend ends up the same,
    requests sent included. *)
Theorem x11_create_surface_head_output backend cfg srv h :
  (outputs backend = [] ->
   x11_create_surface (Some backend) (Some cfg) srv h = (None, Some backend, h)) /\
  (forall s,
     fst (fst (x11_create_surface (Some backend) (Some cfg) srv h)) = Some s ->
     exists o rest backend',
       outputs backend = o :: rest /\
       snd (fst (x11_create_surface (Some backend) (Some cfg) srv h))
       = Some backend' /\
       let w := to_uint16 (if 0 <? cfg_width cfg then cfg_width cfg
                           else width o) in
       let ht := to_uint16 (if 0 <? cfg_height cfg then cfg_height cfg
                            else height o) in
       (exists visual value_mask value_list,
          In (xcb_create_window_checked (window (backend_data s))
                (root_window backend) (x o) (y o) w ht
                visual value_mask value_list)
             (xcb_conn backend')) /\
       In (xcb_map_window (window (backend_data s))) (xcb_conn backend') /\
       surface_width s = w /\
       surface_height s = ht /\
       sd_output (backend_data s) = Some O /\
       output s = cfg_output cfg /\
       (cfg_width cfg = 0 -> 0 <= width o < 65536 -> surface_width s = width o) /\
       (cfg_height cfg = 0 -> 0 <= height o < 65536 ->
        surface_height s = height o) /\
       outputs backend'
       = set_output_surface (o :: rest) O (Some (window (backend_data s)))) /\
  (forall target,
     snd (fst (x11_create_surface (Some backend) (Some (with_target cfg target))
                 srv h))
     = snd (fst (x11_create_surface (Some backend) (Some cfg) srv h))).
Proof.
  split; [|split].
  - intros Hout. unfold x11_create_surface. rewrite Hout.
    destruct (initialized backend); reflexivity.
  - intros s. unfold x11_create_surface.
    destruct (initialized backend); [|discriminate]. cbn [negb].
    destruct (outputs backend) as [|o rest] eqn:Hout; [discriminate|].
    destruct (x11_calloc h) as [[|] h1]; [|discriminate]. cbn [negb].
    destruct (x11_calloc h1) as [[|] h2]; [|discriminate]. cbn [negb].
    cbv zeta.
    destruct (x11_create_desktop_window backend srv (x o) (y o)
                (to_uint16 (if 0 <? cfg_width cfg then cfg_width cfg
                            else width o))
                (to_uint16 (if 0 <? cfg_height cfg then cfg_height cfg
                            else height o)))
      as [win b1] eqn:Hwin.
    apply x11_create_desktop_window_sent in Hwin.
    destruct Hwin as (Houts & Hcount & Hsent).
    destruct (win =? XCB_WINDOW_NONE) eqn:Hnone; [discriminate|].
    apply Z.eqb_neq in Hnone. destruct (Hsent Hnone) as (v & m & l & Hin).
    cbn [fst snd]. intros [= <-].
    exists o, rest. eexists. split; [reflexivity|]. split; [reflexivity|].
    cbn [backend_data window surface_width surface_height sd_output output].
    split; [exists v, m, l; cbn [set_outputs xcb_conn]; auto with x11|].
    split; [cbn [set_outputs xcb_conn]; auto with x11|].
    split; [reflexivity|]. split; [reflexivity|].
    split; [reflexivity|]. split; [reflexivity|].
    split; [|split].
    + intros -> Hrange. cbn. unfold to_uint16. apply Z.mod_small. exact Hrange.
    + intros -> Hrange. cbn. unfold to_uint16. apply Z.mod_small. exact Hrange.
    + cbn [set_outputs outputs send]. rewrite Houts, Hout. reflexivity.
  - intros target. unfold x11_create_surface.
    cbn [with_target cfg_width cfg_height cfg_output].
    destruct (initialized backend); [|reflexivity]. cbn [negb].
    destruct (outputs backend) as [|o rest]; [reflexivity|].
    destruct (x11_calloc h) as [[|] h1]; [|reflexivity]. cbn [negb].
    destruct (x11_calloc h1) as [[|] h2]; [|reflexivity]. cbn [negb].
    cbv zeta.
    destruct (x11_create_desktop_window backend srv (x o) (y o)
                (to_uint16 (if 0 <? cfg_width cfg then cfg_width cfg
                            else width o))
                (to_uint16 (if 0 <? cfg_height cfg then cfg_height cfg
                            else height o)))
      as [win b1].
    destruct (win =? XCB_WINDOW_NONE); reflexivity.
Qed.

Lemma x11_create_surface_head_output_witness :
  x11_create_surface (Some (sample_backend true [])) (Some (sample_config 0 0 None))
    (sample_server true None) []
  = (None, Some (sample_backend true []), []) /\
  (exists s,
     fst (fst (x11_create_surface
                 (Some (sample_backend true
                          [sample_output 2 1920 0 1280 1024 "HDMI-1";
                           sample_output 1 0 0 1920 1080 "DP-1"]))
                 (Some (sample_config 0 0 (Some 5)))
                 (sample_server true None) []))
     = Some s /\
     surface_width s = 1280 /\ surface_height s = 1024).
Proof.
  split.
  - apply (x11_create_surface_head_output (sample_backend true [])
             (sample_config 0 0 None) (sample_server true None) []).
    reflexivity.
  - eexists. split; [reflexivity|].
    destruct (proj1 (proj2 (x11_create_surface_head_output
                (sample_backend true
                   [sample_output 2 1920 0 1280 1024 "HDMI-1";
                    sample_output 1 0 0 1920 1080 "DP-1"])
                (sample_config 0 0 (Some 5)) (sample_server true None) []))
              _ eq_refl)
      as (o & rest & b & Ho & _ & _ & _ & Hw & Hh & _).
    injection Ho as <- <-. split; [exact Hw | exact Hh].
Defined.

(* ======================================================================== *)
(** * Part III. Further properties of the code                               *)
(* ======================================================================== *)

(** ** Protocol detection *)

Lemma registry_handle_global_flags state interface :
  let state' := registry_handle_global state interface in
  proto_layer_shell state'
  = proto_layer_shell state || String.eqb interface "zwlr_layer_shell_v1" /\
  proto_kde_shell state'
  = proto_kde_shell state || String.eqb interface "org_kde_plasma_shell" /\
  proto_gtk_shell state'
  = proto_gtk_shell state || String.eqb interface "gtk_shell1" /\
  proto_viewporter state'
  = proto_viewporter state || String.eqb interface "wp_viewporter" /\
  compositor_name state' = compositor_name state.
Proof.
  unfold registry_handle_global.
  destruct (String.eqb interface "zwlr_layer_shell_v1") eqn:E1.
  { apply String.eqb_eq in E1. subst interface. simpl.
    rewrite !orb_true_r, !orb_false_r. auto. }
  destruct (String.eqb interface "org_kde_plasma_shell") eqn:E2.
  { apply String.eqb_eq in E2. subst interface. simpl.
    rewrite !orb_true_r, !orb_false_r. auto. }
  destruct (String.eqb interface "gtk_shell1") eqn:E3.
  { apply String.eqb_eq in E3. subst interface. simpl.
    rewrite !orb_true_r, !orb_false_r. auto. }
  destruct (String.eqb interface "wp_viewporter") eqn:E4.
  { apply String.eqb_eq in E4. subst interface. simpl.
    rewrite !orb_true_r, !orb_false_r. auto. }
  rewrite !orb_false_r. auto.
Qed.

Lemma fold_registry_handle_global globals : forall state,
  let state' := fold_left registry_handle_global globals state in
  proto_layer_shell state'
  = proto_layer_shell state
    || existsb (fun i => String.eqb i "zwlr_layer_shell_v1") globals /\
  proto_kde_shell state'
  = proto_kde_shell state
    || existsb (fun i => String.eqb i "org_kde_plasma_shell") globals /\
  proto_gtk_shell state'
  = proto_gtk_shell state
    || existsb (fun i => String.eqb i "gtk_shell1") globals /\
  proto_viewporter state'
  = proto_viewporter state
    || existsb (fun i => String.eqb i "wp_viewporter") globals /\
  compositor_name state' = compositor_name state.
Proof.
  induction globals as [|g globals IH]; intros state; simpl.
  - rewrite !orb_false_r. auto.
  - destruct (IH (registry_handle_global state g)) as (H1 & H2 & H3 & H4 & H5).
    destruct (registry_handle_global_flags state g) as (G1 & G2 & G3 & G4 & G5).
    rewrite H1, H2, H3, H4, H5, G1, G2, G3, G4, G5, !orb_assoc. auto.
Qed.

Lemma existsb_eqb_In (wanted : string) (l : list string) :
  existsb (fun i => String.eqb i wanted) l = true <-> In wanted l.
Proof.
  rewrite existsb_exists. split.
  - intros (i & Hin & Heq). apply String.eqb_eq in Heq. subst. exact Hin.
  - intros Hin. exists wanted. split; [exact Hin | apply String.eqb_refl].
Qed.

(** X1.  [detect_protocols] sets a flag exactly when the registry could be
    obtained and the interface of that flag is among those the server
    announces, wherever in the list and however often; every other
    interface is ignored, and the name buffer stays empty. *)
Theorem detect_protocols_flags display :
  let announced i :=
    exists globals, wl_display_get_registry display = Some globals /\
                    In i globals in
  (proto_layer_shell (detect_protocols display) = true
   <-> announced "zwlr_layer_shell_v1") /\
  (proto_kde_shell (detect_protocols display) = true
   <-> announced "org_kde_plasma_shell") /\
  (proto_gtk_shell (detect_protocols display) = true
   <-> announced "gtk_shell1") /\
  (proto_viewporter (detect_protocols display) = true
   <-> announced "wp_viewporter") /\
  compositor_name (detect_protocols display) = "".
Proof.
  cbv zeta. unfold detect_protocols.
  destruct (wl_display_get_registry display) as [globals|].
  - destruct (fold_registry_handle_global globals protocol_state_zero)
      as (H1 & H2 & H3 & H4 & H5).
    rewrite H1, H2, H3, H4, H5. simpl.
    repeat split; try (intros H; apply existsb_eqb_In in H; eauto);
      intros (g & [= <-] & Hin); apply existsb_eqb_In; exact Hin.
  - simpl. repeat split; try discriminate; intros (g & Hg & _); discriminate.
Qed.

Lemma detect_protocols_flags_witness :
  proto_kde_shell
    (detect_protocols
       {| wl_display_get_registry :=
            Some ["wl_compositor"; "org_kde_plasma_shell"; "wl_compositor"] |})
  = true.
Proof.
  apply (detect_protocols_flags
           {| wl_display_get_registry :=
                Some ["wl_compositor"; "org_kde_plasma_shell";
                      "wl_compositor"] |}).
  eexists. split; [reflexivity|]. right. left. reflexivity.
Defined.

(** ** Compositor detection *)

(** X2.  Distinct compositor types have distinct names. *)
Theorem compositor_type_to_string_injective t1 t2 :
  compositor_type_to_string t1 = compositor_type_to_string t2 -> t1 = t2.
Proof.
  destruct t1, t2; simpl; intros H; try reflexivity; discriminate H.
Qed.

Lemma compositor_type_to_string_injective_witness :
  COMPOSITOR_TYPE_GENERIC = COMPOSITOR_TYPE_GENERIC.
Proof.
  apply (compositor_type_to_string_injective
           COMPOSITOR_TYPE_GENERIC COMPOSITOR_TYPE_GENERIC).
  reflexivity.
Defined.

(** X3.  The classifier answers "unknown" exactly when no environment test
    matches and none of the three protocol flags it reads is set; the
    viewporter flag and the name buffer never matter. *)
Theorem detect_compositor_type_unknown getenv proto :
  (detect_compositor_type getenv proto = COMPOSITOR_TYPE_UNKNOWN
   <-> environment_identity getenv = None /\
       proto_layer_shell proto = false /\
       proto_kde_shell proto = false /\
       proto_gtk_shell proto = false) /\
  (forall viewporter name,
     detect_compositor_type getenv
       {| proto_layer_shell := proto_layer_shell proto;
          proto_kde_shell := proto_kde_shell proto;
          proto_gtk_shell := proto_gtk_shell proto;
          proto_viewporter := viewporter;
          compositor_name := name |}
     = detect_compositor_type getenv proto).
Proof.
  split; [|reflexivity].
  rewrite detect_compositor_type_split.
  unfold environment_identity, protocol_identity. cbv zeta.
  split_env_tests;
    destruct (proto_kde_shell proto), (proto_gtk_shell proto),
             (proto_layer_shell proto); simpl;
    split; try discriminate; try (intros (? & ? & ? & ?); discriminate);
    auto.
Qed.

Lemma detect_compositor_type_unknown_witness :
  detect_compositor_type (env_of [("XDG_CURRENT_DESKTOP", "labwc")])
    (sample_proto false false false)
  = COMPOSITOR_TYPE_UNKNOWN.
Proof.
  refine (proj2 (proj1 (detect_compositor_type_unknown
                          (env_of [("XDG_CURRENT_DESKTOP", "labwc")])
                          (sample_proto false false false))) _).
  repeat split.
Defined.

(** X4.  What [compositor_detect] reports is consistent: the name is that
    of the type; the generic type comes with the layer-shell flag set and
    both shell flags clear; the unknown type comes with all three flags
    clear; and a set KDE-shell flag leaves only the four wlroots
    compositors and KDE Plasma as possible types. *)
Theorem compositor_detect_consistent getenv display :
  let info := compositor_detect getenv display in
  info_name info = compositor_type_to_string (info_type info) /\
  (info_type info = COMPOSITOR_TYPE_GENERIC ->
   has_layer_shell info = true /\ has_kde_shell info = false /\
   has_gtk_shell info = false) /\
  (info_type info = COMPOSITOR_TYPE_UNKNOWN ->
   has_layer_shell info = false /\ has_kde_shell info = false /\
   has_gtk_shell info = false) /\
  (has_kde_shell info = true ->
   info_type info = COMPOSITOR_TYPE_HYPRLAND \/
   info_type info = COMPOSITOR_TYPE_SWAY \/
   info_type info = COMPOSITOR_TYPE_RIVER \/
   info_type info = COMPOSITOR_TYPE_WAYFIRE \/
   info_type info = COMPOSITOR_TYPE_KDE_PLASMA).
Proof.
  cbv zeta. unfold compositor_detect. cbn [info_name info_type has_layer_shell
    has_kde_shell has_gtk_shell].
  generalize (detect_protocols display) as proto. intros proto.
  split; [reflexivity|].
  rewrite detect_compositor_type_split.
  unfold environment_identity, protocol_identity. cbv zeta.
  split_env_tests;
    destruct (proto_kde_shell proto), (proto_gtk_shell proto),
             (proto_layer_shell proto); simpl;
    repeat split; try discriminate; auto 6.
Qed.

Lemma compositor_detect_consistent_witness :
  has_layer_shell
    (compositor_detect (env_of [])
       {| wl_display_get_registry := Some ["wl_shm"; "zwlr_layer_shell_v1"] |})
  = true.
Proof.
  apply (compositor_detect_consistent (env_of [])
           {| wl_display_get_registry := Some ["wl_shm"; "zwlr_layer_shell_v1"] |}).
  reflexivity.
Defined.

(** ** Substring tests on the environment *)

Lemma prefix_append needle : forall s,
  String.prefix needle s = true <-> exists post, s = (needle ++ post)%string.
Proof.
  induction needle as [|a needle IH]; intros s.
  - split; [intros _; exists s; reflexivity | intros _; destruct s; reflexivity].
  - destruct s as [|b s]; simpl.
    + split; [discriminate | intros (post & H); discriminate H].
    + destruct (ascii_dec a b) as [->|Hne].
      * rewrite IH. split; intros (post & H); exists post.
        -- rewrite H. reflexivity.
        -- simpl in H. injection H as H. exact H.
      * split; [discriminate|]. intros (post & H). simpl in H.
        injection H as H1 H2. congruence.
Qed.

Lemma strstr_unfold haystack needle :
  strstr haystack needle =
  if String.prefix needle haystack then Some haystack
  else match haystack with
       | EmptyString => None
       | String _ rest => strstr rest needle
       end.
Proof. destruct haystack; reflexivity. Qed.

Lemma strstr_sound haystack needle : forall s,
  strstr haystack needle = Some s ->
  exists pre post, haystack = (pre ++ needle ++ post)%string.
Proof.
  induction haystack as [|c haystack IH]; intros s; rewrite strstr_unfold.
  - destruct (String.prefix needle "") eqn:Hp; [|discriminate].
    intros _. apply prefix_append in Hp. destruct Hp as (post & Hp).
    exists ""%string, post. exact Hp.
  - destruct (String.prefix needle (String c haystack)) eqn:Hp.
    + intros _. apply prefix_append in Hp. destruct Hp as (post & Hp).
      exists ""%string, post. exact Hp.
    + intros H. destruct (IH s H) as (pre & post & Heq).
      exists (String c pre), post. simpl. rewrite Heq. reflexivity.
Qed.

Lemma strstr_complete needle post : forall pre,
  strstr (pre ++ needle ++ post) needle <> None.
Proof.
  induction pre as [|c pre IH]; rewrite strstr_unfold.
  - assert (String.prefix needle (needle ++ post) = true) as Hp
        by (apply prefix_append; eauto).
    change ("" ++ needle ++ post)%string with (needle ++ post)%string.
    rewrite Hp. discriminate.
  - change (String c pre ++ needle ++ post)%string
      with (String c (pre ++ needle ++ post)).
    destruct (String.prefix needle (String c (pre ++ needle ++ post)));
      [discriminate | exact IH].
Qed.

Lemma hint_contains v needle : hint v needle = true <-> contains v needle.
Proof.
  unfold hint, contains. destruct v as [s|].
  - split.
    + destruct (strstr s needle) as [t|] eqn:Hs; [|discriminate].
      intros _. destruct (strstr_sound s needle t Hs) as (pre & post & Heq).
      eauto.
    + intros (s' & pre & post & [= <-] & ->).
      pose proof (strstr_complete needle post pre) as Hne.
      destruct (strstr (pre ++ needle ++ post) needle); [reflexivity|].
      contradiction Hne. reflexivity.
  - split; [discriminate|]. intros (s & pre & post & H & _). discriminate H.
Qed.

(** X5.  The classifier answers Hyprland exactly when "Hyprland" occurs in
    [XDG_CURRENT_DESKTOP] or in [XDG_SESSION_DESKTOP], or "hyprland" occurs
    in [WAYLAND_DISPLAY]: a test for a substring, with the case as written,
    that no protocol flag and no other variable can outvote. *)
Theorem detect_compositor_type_hyprland getenv proto :
  detect_compositor_type getenv proto = COMPOSITOR_TYPE_HYPRLAND
  <-> contains (getenv "XDG_CURRENT_DESKTOP") "Hyprland" \/
      contains (getenv "XDG_SESSION_DESKTOP") "Hyprland" \/
      contains (getenv "WAYLAND_DISPLAY") "hyprland".
Proof.
  rewrite <- !hint_contains.
  unfold detect_compositor_type. cbv zeta.
  destruct (hint (getenv "XDG_CURRENT_DESKTOP") "Hyprland");
    [simpl; split; auto|].
  destruct (hint (getenv "XDG_SESSION_DESKTOP") "Hyprland");
    [simpl; split; auto|].
  destruct (hint (getenv "WAYLAND_DISPLAY") "hyprland");
    [simpl; split; auto|].
  simpl. split; [|intros [H|[H|H]]; discriminate H].
  split_env_tests; try discriminate;
    destruct (proto_kde_shell proto); simpl; try discriminate;
    destruct (proto_gtk_shell proto); simpl; try discriminate;
    destruct (proto_layer_shell proto); discriminate.
Qed.

Lemma detect_compositor_type_hyprland_witness :
  detect_compositor_type (env_of [("WAYLAND_DISPLAY", "wayland-hyprland-1")])
    (sample_proto false true true)
  = COMPOSITOR_TYPE_HYPRLAND.
Proof.
  apply (detect_compositor_type_hyprland
           (env_of [("WAYLAND_DISPLAY", "wayland-hyprland-1")])
           (sample_proto false true true)).
  right. right. exists "wayland-hyprland-1"%string, "wayland-"%string, "-1"%string.
  split; reflexivity.
Defined.

(** ** More on the registry *)

Section RegistryMore.

Context {World backend_data : Type}.
Implicit Types (reg : registry World backend_data)
               (e : backend_entry World backend_data).

(** X6.  Registering is idempotent: a second call with the same arguments
    leaves the table as the first call left it. *)
Theorem compositor_backend_register_idempotent
    (name description : option string) (priority : Z)
    (ops : option (compositor_backend_ops_t World backend_data)) reg :
  let reg1 := snd (compositor_backend_register name description priority ops reg) in
  snd (compositor_backend_register name description priority ops reg1) = reg1.
Proof.
  cbv zeta.
  destruct (register_shape name description priority ops reg)
    as [[_ H]|[_ (n & o & -> & -> & H)]]; cbv zeta in H; rewrite H.
  - exact H.
  - unfold compositor_backend_register.
    destruct (MAX_BACKENDS <=? backend_count (reg ++ _))%nat; [reflexivity|].
    rewrite registry_find_app. simpl. rewrite String.eqb_refl.
    destruct (registry_find n reg); reflexivity.
Qed.

(** X7.  After a registration that succeeds, looking the name up finds the
    descriptor just registered, with the four values passed in; whatever
    the outcome, the lookup of every other name is what it was. *)
Theorem compositor_backend_register_lookup
    (name description : option string) (priority : Z)
    (ops : option (compositor_backend_ops_t World backend_data)) reg :
  let r := compositor_backend_register name description priority ops reg in
  (register_ok (fst r) = true ->
   exists n o,
     name = Some n /\ ops = Some o /\
     registry_find n (snd r)
     = Some {| entry_name := n; entry_description := description;
               entry_priority := priority; entry_ops := o |}) /\
  (forall other, name <> Some other ->
                 registry_find other (snd r) = registry_find other reg).
Proof.
  cbv zeta. unfold compositor_backend_register.
  destruct (MAX_BACKENDS <=? backend_count reg)%nat;
    [split; [discriminate | reflexivity]|].
  destruct name as [n|]; [|split; [discriminate | reflexivity]].
  destruct ops as [o|]; [|split; [discriminate | reflexivity]].
  destruct (registry_find n reg) eqn:Hfind;
    [split; [discriminate | reflexivity]|].
  cbn [fst snd]. split.
  - intros _. exists n, o. repeat split.
    rewrite registry_find_app, Hfind. simpl. rewrite String.eqb_refl.
    reflexivity.
  - intros other Hne. rewrite registry_find_app. simpl.
    destruct (String.eqb n other) eqn:E.
    + apply String.eqb_eq in E. subst. contradiction Hne. reflexivity.
    + destruct (registry_find other reg); reflexivity.
Qed.

Lemma register_keeps_NoDup name description priority
    (ops : option (compositor_backend_ops_t World backend_data)) reg :
  NoDup (map entry_name reg) ->
  NoDup (map entry_name
           (snd (compositor_backend_register name description priority ops reg))).
Proof.
  intros Hnd. unfold compositor_backend_register.
  destruct (MAX_BACKENDS <=? backend_count reg)%nat; [exact Hnd|].
  destruct name as [n|]; [|exact Hnd].
  destruct ops as [o|]; [|exact Hnd].
  destruct (registry_find n reg) eqn:Hfind; [exact Hnd|].
  cbn [snd]. rewrite map_app. simpl.
  apply registry_find_None in Hfind.
  apply NoDup_app; [exact Hnd | constructor; [intros [] | constructor] |].
  intros a Ha [<-|[]]. contradiction.
Qed.

(** X8.  Any run of registrations that starts from a table with distinct
    names and at most [MAX_BACKENDS] entries ends in such a table; so does
    every run that starts from the empty table. *)
Theorem register_all_invariant
    (calls : list (registration World backend_data)) reg :
  NoDup (map entry_name reg) ->
  (backend_count reg <= MAX_BACKENDS)%nat ->
  NoDup (map entry_name (register_all calls reg)) /\
  (backend_count (register_all calls reg) <= MAX_BACKENDS)%nat.
Proof.
  revert reg. induction calls as [|c calls IH]; intros reg Hnd Hle.
  - split; assumption.
  - apply IH.
    + apply register_keeps_NoDup. exact Hnd.
    + apply register_bounded. exact Hle.
Qed.

End RegistryMore.

Lemma compositor_backend_register_lookup_witness :
  exists n o,
    Some "x11"%string = Some n /\ Some (sample_ops true) = Some o /\
    registry_find n
      (snd (compositor_backend_register (Some "x11") None 50
              (Some (sample_ops true)) [sample_entry "fallback" 10 true]))
    = Some {| entry_name := n; entry_description := None;
              entry_priority := 50; entry_ops := o |}.
Proof.
  apply (compositor_backend_register_lookup (Some "x11") None 50
           (Some (sample_ops true)) [sample_entry "fallback" 10 true]).
  reflexivity.
Defined.

Lemma register_all_invariant_witness :
  NoDup (map entry_name
           (register_all
              [ {| reg_name := Some "fallback"; reg_description := None;
                   reg_priority := 10; reg_ops := Some (sample_ops true) |};
                {| reg_name := Some "fallback"; reg_description := None;
                   reg_priority := 99; reg_ops := Some (sample_ops false) |} ]
              [])) /\
  (backend_count
     (register_all
        [ {| reg_name := Some "fallback"; reg_description := None;
             reg_priority := 10; reg_ops := Some (sample_ops true) |};
          {| reg_name := Some "fallback"; reg_description := None;
             reg_priority := 99; reg_ops := Some (sample_ops false) |} ]
        []) <= MAX_BACKENDS)%nat.
Proof.
  apply (register_all_invariant
           [ {| reg_name := Some "fallback"; reg_description := None;
                reg_priority := 10; reg_ops := Some (sample_ops true) |};
             {| reg_name := Some "fallback"; reg_description := None;
                reg_priority := 99; reg_ops := Some (sample_ops false) |} ]
           []).
  - constructor.
  - vm_compute. lia.
Defined.

(** ** More on the selector *)

Section SelectorMore.

Context {World backend_data : Type}.
Variable calloc : World -> bool * World.
Implicit Types (reg : registry World backend_data)
               (e : backend_entry World backend_data)
               (w : World).

Lemma try_backend_selected wanted reg state w b :
  fst (try_backend calloc wanted reg state w) = Selected b ->
  exists e d, registry_find wanted reg = Some e /\ b = backend_of e d.
Proof.
  rewrite try_backend_find.
  destruct (registry_find wanted reg) as [e|]; [|discriminate].
  rewrite init_entry_cases.
  destruct (init (entry_ops e) state w) as [[d|] w1]; [|discriminate].
  destruct (fst (calloc w1)); [|discriminate].
  intros [= <-]. eauto.
Qed.

Lemma preferred_backend_names info :
  preferred_backend info = "wlr-layer-shell"%string \/
  preferred_backend info = "gnome-shell"%string \/
  preferred_backend info = "fallback"%string.
Proof.
  unfold preferred_backend.
  destruct (info_type info); auto; destruct (has_layer_shell info); auto.
Qed.

Lemma select_backend_selected state info reg w b :
  fst (select_backend calloc state info reg w) = Some b ->
  exists wanted e d,
    (wanted = preferred_backend info \/ wanted = "fallback"%string) /\
    registry_find wanted reg = Some e /\ b = backend_of e d.
Proof.
  unfold select_backend.
  destruct (try_backend calloc (preferred_backend info) reg state w)
    as [[b1| |] w1] eqn:Hpref; simpl.
  - intros [= <-].
    destruct (try_backend_selected (preferred_backend info) reg state w b1)
      as (e & d & Hfind & Hb); [rewrite Hpref; reflexivity|].
    exists (preferred_backend info), e, d. auto.
  - destruct (negb (String.eqb (preferred_backend info) "fallback"));
      [|discriminate].
    destruct (try_backend calloc "fallback" reg state w1)
      as [[b2| |] w2] eqn:Hfb; simpl; try discriminate.
    intros [= <-].
    destruct (try_backend_selected "fallback" reg state w1 b2)
      as (e & d & Hfind & Hb); [rewrite Hfb; reflexivity|].
    exists "fallback"%string, e, d. auto.
  - discriminate.
Qed.

(** X9.  A backend that [select_backend] returns is a copy of a slot of
    the table: the slot its own name is looked up to, with the name, the
    description, the priority and the operation table of that slot, data
    that is not null, and the capabilities the operations report for that
    data.  Its name is one of "wlr-layer-shell", "gnome-shell" and
    "fallback", so no backend registered under another name (such as "x11"
    or a KDE backend) is ever selected.  Cleaning it up calls the [cleanup]
    of its operations on its data. *)
Theorem select_backend_returns_registered state info reg w b :
  fst (select_backend calloc state info reg w) = Some b ->
  exists e d,
    registry_find (name b) reg = Some e /\
    In e reg /\
    name b = entry_name e /\
    description b = entry_description e /\
    priority b = entry_priority e /\
    ops b = Some (entry_ops e) /\
    data b = Some d /\
    capabilities b = get_capabilities (entry_ops e) d /\
    (name b = "wlr-layer-shell"%string \/ name b = "gnome-shell"%string \/
     name b = "fallback"%string) /\
    (forall w', compositor_backend_cleanup (Some b) w'
                = cleanup (entry_ops e) d w').
Proof.
  intros Hsel.
  destruct (select_backend_selected state info reg w b Hsel)
    as (wanted & e & d & Hwanted & Hfind & ->).
  destruct (registry_find_name wanted reg e Hfind) as [Hname Hin].
  exists e, d. cbn [backend_of name description priority ops data capabilities].
  rewrite Hname. repeat split; auto.
  destruct Hwanted as [-> | ->]; [apply preferred_backend_names | auto].
Qed.

(** X10.  Once [init] of the backend registered under the preferred name
    has returned data, the allocation alone decides: if it succeeds that
    backend is returned; if it fails, the data is cleaned up and null is
    returned.  In neither case is "fallback" tried: the world is the one
    the preferred backend and the allocation left. *)
Theorem select_backend_preferred_initialised state info reg w e d w1 :
  registry_find (preferred_backend info) reg = Some e ->
  init (entry_ops e) state w = (Some d, w1) ->
  select_backend calloc state info reg w =
  if fst (calloc w1)
  then (Some {| name := entry_name e;
                description := entry_description e;
                priority := entry_priority e;
                ops := Some (entry_ops e);
                data := Some d;
                capabilities := get_capabilities (entry_ops e) d |},
        snd (calloc w1))
  else (None, cleanup (entry_ops e) d (snd (calloc w1))).
Proof.
  intros Hfind Hinit. unfold select_backend.
  rewrite try_backend_find, Hfind, init_entry_cases, Hinit.
  destruct (fst (calloc w1)); reflexivity.
Qed.

(** X11.  If "fallback" is registered, its [init] returns data in every
    world and no allocation fails, then [select_backend] returns a backend,
    whatever the compositor and whatever else is or is not registered. *)
Theorem select_backend_resilient state info reg w e :
  registry_find "fallback" reg = Some e ->
  (forall w', fst (init (entry_ops e) state w') <> None) ->
  (forall w', fst (calloc w') = true) ->
  fst (select_backend calloc state info reg w) <> None.
Proof.
  intros Hfind Hinit Halloc.
  assert (Hfb : forall w', exists b,
             fst (try_backend calloc "fallback" reg state w') = Selected b).
  { intros w'. rewrite try_backend_find, Hfind, init_entry_cases.
    specialize (Hinit w').
    destruct (init (entry_ops e) state w') as [[d|] w1];
      [|contradiction Hinit; reflexivity].
    rewrite Halloc. eexists. reflexivity. }
  assert (Hna : forall wanted w',
             fst (try_backend calloc wanted reg state w') <> AllocFailed).
  { intros wanted w'. rewrite try_backend_find.
    destruct (registry_find wanted reg) as [e'|]; [|discriminate].
    rewrite init_entry_cases.
    destruct (init (entry_ops e') state w') as [[d|] w1]; [|discriminate].
    rewrite Halloc. discriminate. }
  unfold select_backend.
  destruct (try_backend calloc (preferred_backend info) reg state w)
    as [[b| |] w1] eqn:Hpref; simpl.
  - discriminate.
  - destruct (String.eqb (preferred_backend info) "fallback") eqn:Heq; simpl.
    + apply String.eqb_eq in Heq. rewrite Heq in Hpref.
      destruct (Hfb w) as [b Hb]. rewrite Hpref in Hb. discriminate Hb.
    + destruct (Hfb w1) as [b Hb].
      destruct (try_backend calloc "fallback" reg state w1) as [a w2].
      simpl in Hb. subst a. discriminate.
  - exfalso. apply (Hna (preferred_backend info) w). rewrite Hpref.
    reflexivity.
Qed.

(** X12.  Registering the X11 backend never touches the world and is
    idempotent; if the table has room, "x11" is registered afterwards, and
    if it was not registered before, it is registered with priority 50 and
    the operation table of the X11 backend.  Lookups of other names are
    unchanged. *)
Theorem compositor_backend_x11_init_registers
    (x11_backend_ops : compositor_backend_ops_t World backend_data)
    state (rw : registry World backend_data * World) :
  let rw' := compositor_backend_x11_init x11_backend_ops state rw in
  snd rw' = snd rw /\
  compositor_backend_x11_init x11_backend_ops state rw' = rw' /\
  ((backend_count (fst rw) < MAX_BACKENDS)%nat ->
   exists e, registry_find "x11" (fst rw') = Some e /\
             (registry_find "x11" (fst rw) = None ->
              entry_priority e = 50 /\ entry_ops e = x11_backend_ops /\
              fst rw' = fst rw ++ [e])) /\
  (forall other, other <> "x11"%string ->
                 registry_find other (fst rw') = registry_find other (fst rw)).
Proof.
  destruct rw as [reg w]. cbv zeta.
  unfold compositor_backend_x11_init, compositor_backend_register.
  cbn [fst snd].
  destruct (MAX_BACKENDS <=? backend_count reg)%nat eqn:Full.
  - cbn [fst snd]. rewrite Full. repeat split.
    intros Room. apply Nat.leb_le in Full. lia.
  - destruct (registry_find "x11" reg) as [e0|] eqn:Hfind; cbn [fst snd].
    + rewrite Full, Hfind. repeat split.
      intros _. exists e0. split; [reflexivity | discriminate].
    + split; [reflexivity|]. split; [|split].
      * destruct (MAX_BACKENDS <=? backend_count (reg ++ _))%nat;
          [reflexivity|].
        rewrite registry_find_app, Hfind. reflexivity.
      * intros _. eexists. rewrite registry_find_app, Hfind.
        split; [reflexivity|]. intros _. repeat split.
      * intros other Hne. rewrite registry_find_app.
        cbn [registry_find entry_name].
        destruct (String.eqb "x11" other) eqn:E.
        -- apply String.eqb_eq in E. congruence.
        -- destruct (registry_find other reg); reflexivity.
Qed.

(** X13.  A backend that [compositor_backend_init] returns is registered
    in the table it returns, under its own name and with its own operation
    table, whatever the registration functions of the backends did; and its
    name is one of "wlr-layer-shell", "gnome-shell" and "fallback". *)
Theorem compositor_backend_init_returns_registered
    (wlr kde gnome fallback :
       neowall_state -> registry World backend_data * World ->
       registry World backend_data * World)
    (HAVE_X11 : bool)
    (x11_backend_ops : compositor_backend_ops_t World backend_data)
    (getenv : environ) state reg w b reg' w' :
  compositor_backend_init calloc wlr kde gnome fallback HAVE_X11
    x11_backend_ops getenv state reg w = (Some b, reg', w') ->
  (exists e, registry_find (name b) reg' = Some e /\
             ops b = Some (entry_ops e) /\
             priority b = entry_priority e) /\
  (name b = "wlr-layer-shell"%string \/ name b = "gnome-shell"%string \/
   name b = "fallback"%string) /\
  (exists st dpy, state = Some st /\ display st = Some dpy).
Proof.
  unfold compositor_backend_init.
  destruct state as [st|]; [|discriminate].
  destruct (display st) as [dpy|] eqn:Hdpy; [|discriminate].
  cbv zeta.
  match goal with
  | |- context [select_backend calloc st ?i ?r ?x] =>
      destruct (select_backend calloc st i r x) as [ob w2] eqn:Hsel;
      set (regs := r) in *
  end.
  intros [= -> <- <-].
  pose proof (f_equal fst Hsel) as Hfst. cbn [fst] in Hfst.
  destruct (select_backend_selected _ _ _ _ _ Hfst)
    as (wanted & e & d & Hwanted & Hfind & ->).
  destruct (registry_find_name wanted regs e Hfind) as [Hname _].
  cbn [backend_of name ops priority]. rewrite Hname.
  split; [exists e; auto|]. split; [|eauto].
  destruct Hwanted as [-> | ->]; [apply preferred_backend_names | auto].
Qed.

End SelectorMore.

Lemma select_backend_returns_registered_witness :
  exists e d,
    registry_find "fallback"
      [sample_entry "wlr-layer-shell" 100 false; sample_entry "fallback" 10 true]
    = Some e /\
    In e [sample_entry "wlr-layer-shell" 100 false;
          sample_entry "fallback" 10 true] /\
    "fallback"%string = entry_name e /\
    None = entry_description e /\
    10 = entry_priority e /\
    Some (sample_ops true) = Some (entry_ops e) /\
    Some 7%nat = Some d /\
    COMPOSITOR_CAP_LAYER_SHELL = get_capabilities (entry_ops e) d /\
    ("fallback"%string = "wlr-layer-shell"%string \/
     "fallback"%string = "gnome-shell"%string \/
     "fallback"%string = "fallback"%string) /\
    (forall w',
       compositor_backend_cleanup
         (Some {| name := "fallback"; description := None; priority := 10;
                  ops := Some (sample_ops true); data := Some 7%nat;
                  capabilities := COMPOSITOR_CAP_LAYER_SHELL |}) w'
       = cleanup (entry_ops e) d w').
Proof.
  apply (select_backend_returns_registered sample_calloc sample_state
           (sample_info COMPOSITOR_TYPE_HYPRLAND true)
           [sample_entry "wlr-layer-shell" 100 false;
            sample_entry "fallback" 10 true] tt
           {| name := "fallback"; description := None; priority := 10;
              ops := Some (sample_ops true); data := Some 7%nat;
              capabilities := COMPOSITOR_CAP_LAYER_SHELL |}).
  reflexivity.
Defined.

Lemma select_backend_preferred_initialised_witness :
  select_backend sample_calloc sample_state
    (sample_info COMPOSITOR_TYPE_SWAY true)
    [sample_entry "wlr-layer-shell" 100 true; sample_entry "fallback" 10 true] tt
  = (Some {| name := "wlr-layer-shell"; description := None; priority := 100;
             ops := Some (sample_ops true); data := Some 7%nat;
             capabilities := COMPOSITOR_CAP_LAYER_SHELL |}, tt).
Proof.
  apply (select_backend_preferred_initialised sample_calloc sample_state
           (sample_info COMPOSITOR_TYPE_SWAY true)
           [sample_entry "wlr-layer-shell" 100 true;
            sample_entry "fallback" 10 true] tt
           (sample_entry "wlr-layer-shell" 100 true) 7%nat tt);
    reflexivity.
Defined.

Lemma select_backend_resilient_witness :
  fst (select_backend sample_calloc sample_state
         (sample_info COMPOSITOR_TYPE_GNOME_SHELL false)
         [sample_entry "fallback" 10 true] tt) <> None.
Proof.
  apply (select_backend_resilient sample_calloc sample_state
           (sample_info COMPOSITOR_TYPE_GNOME_SHELL false)
           [sample_entry "fallback" 10 true] tt
           (sample_entry "fallback" 10 true)).
  - reflexivity.
  - intros w'. discriminate.
  - intros w'. reflexivity.
Defined.

Lemma compositor_backend_x11_init_registers_witness :
  exists e,
    registry_find "x11"
      (fst (compositor_backend_x11_init (sample_ops true) sample_state
              ([sample_entry "fallback" 10 true], tt)))
    = Some e /\
    (registry_find "x11" [sample_entry "fallback" 10 true] = None ->
     entry_priority e = 50 /\ entry_ops e = sample_ops true /\
     fst (compositor_backend_x11_init (sample_ops true) sample_state
            ([sample_entry "fallback" 10 true], tt))
     = [sample_entry "fallback" 10 true] ++ [e]).
Proof.
  apply (compositor_backend_x11_init_registers (sample_ops true) sample_state
           ([sample_entry "fallback" 10 true], tt)).
  vm_compute. lia.
Defined.

Lemma compositor_backend_init_returns_registered_witness :
  exists e,
    registry_find "fallback" [sample_entry "fallback" 10 true] = Some e /\
    Some (sample_ops true) = Some (entry_ops e) /\
    10 = entry_priority e.
Proof.
  apply (compositor_backend_init_returns_registered sample_calloc
           (fun _ rw => rw) (fun _ rw => rw) (fun _ rw => rw)
           (fun _ rw =>
              (snd (compositor_backend_register (Some "fallback") None 10
                      (Some (sample_ops true)) (fst rw)), snd rw))
           false (sample_ops true) (env_of []) (Some sample_state) [] tt
           {| name := "fallback"; description := None; priority := 10;
              ops := Some (sample_ops true); data := Some 7%nat;
              capabilities := COMPOSITOR_CAP_LAYER_SHELL |}
           [sample_entry "fallback" 10 true] tt).
  reflexivity.
Defined.

(** ** The X11 backend: initialisation and outputs *)

(** X14.  Of the nine atoms only [_NET_WM_WINDOW_TYPE_DESKTOP] is required:
    [x11_init_atoms] succeeds exactly when the server answers the request
    for that atom with an atom other than [XCB_ATOM_NONE]; an atom the
    server does not answer for is stored as [XCB_ATOM_NONE]. *)
Theorem x11_init_atoms_required srv :
  (fst (x11_init_atoms srv) = true
   <-> exists a, xcb_intern_atom_reply srv "_NET_WM_WINDOW_TYPE_DESKTOP" = Some a
                 /\ a <> XCB_ATOM_NONE) /\
  (forall n, xcb_intern_atom_reply srv n = None ->
             x11_get_atom srv n = XCB_ATOM_NONE) /\
  net_wm_window_type_desktop (snd (x11_init_atoms srv))
  = x11_get_atom srv "_NET_WM_WINDOW_TYPE_DESKTOP".
Proof.
  split; [|split; [|reflexivity]].
  - unfold x11_init_atoms. cbv zeta. cbn [fst net_wm_window_type_desktop].
    unfold x11_get_atom.
    destruct (xcb_intern_atom_reply srv "_NET_WM_WINDOW_TYPE_DESKTOP") as [a|].
    + rewrite negb_true_iff, Z.eqb_neq. split.
      * intros Hne. exists a. auto.
      * intros (a' & [= <-] & Hne). exact Hne.
    + simpl. split; [discriminate|]. intros (a & H & _). discriminate H.
  - intros n Hn. unfold x11_get_atom. rewrite Hn. reflexivity.
Qed.

Lemma x11_init_atoms_required_witness :
  fst (x11_init_atoms (sample_server false None)) = true.
Proof.
  apply (x11_init_atoms_required (sample_server false None)).
  eexists. split; [reflexivity|]. vm_compute. discriminate.
Defined.

Lemma detect_one_output_randr srv id outs count h :
  detect_one_output srv id (outs, count, h) =
  match randr_output srv id with
  | None => (outs, count, h)
  | Some o =>
      if fst (x11_calloc h)
      then (o :: outs, to_uint32 (count + 1), snd (x11_calloc h))
      else (outs, count, snd (x11_calloc h))
  end.
Proof.
  unfold detect_one_output, randr_output.
  destruct (xcb_randr_get_output_info_reply srv id) as [r|]; [|reflexivity].
  destruct (negb (connection r =? XCB_RANDR_CONNECTION_CONNECTED)
            || (reply_crtc r =? XCB_NONE)); [reflexivity|].
  destruct (xcb_randr_get_crtc_info_reply srv (reply_crtc r)) as [c|];
    [|reflexivity].
  destruct (x11_calloc h) as [[|] h']; reflexivity.
Qed.

Lemma to_uint32_succ n :
  to_uint32 (to_uint32 (Z.of_nat n) + 1) = to_uint32 (Z.of_nat (S n)).
Proof.
  unfold to_uint32. rewrite Nat2Z.inj_succ, Zplus_mod_idemp_l.
  reflexivity.
Qed.

(** The loop with no allocation failing: the usable outputs are pushed one
    by one. *)
Lemma detect_loop_no_failure srv ids : forall outs,
  fold_left (fun acc id => detect_one_output srv id acc) ids
            (outs, to_uint32 (Z.of_nat (List.length outs)), [])
  = (rev (randr_outputs srv ids) ++ outs,
     to_uint32 (Z.of_nat (List.length (rev (randr_outputs srv ids) ++ outs))),
     []).
Proof.
  induction ids as [|id ids IH]; intros outs; [reflexivity|].
  cbn [fold_left randr_outputs]. rewrite detect_one_output_randr.
  destruct (randr_output srv id) as [o|]; [|apply IH].
  cbn [x11_calloc fst snd]. rewrite to_uint32_succ.
  change (S (List.length outs)) with (List.length (o :: outs)).
  rewrite IH. cbn [rev]. rewrite <- app_assoc. reflexivity.
Qed.

(** The loop on any heap keeps the count in step with the list, only adds
    records that [randr_output] describes, and keeps what was there. *)
Lemma detect_loop_invariant srv ids : forall outs h,
  let '(outs', count', _) :=
    fold_left (fun acc id => detect_one_output srv id acc) ids
              (outs, to_uint32 (Z.of_nat (List.length outs)), h) in
  count' = to_uint32 (Z.of_nat (List.length outs')) /\
  exists added, outs' = added ++ outs /\
                Forall (fun o => exists id, In id ids /\
                                            randr_output srv id = Some o) added.
Proof.
  induction ids as [|id ids IH]; intros outs h.
  - cbn [fold_left]. split; [reflexivity|]. exists []. split; [reflexivity|].
    constructor.
  - cbn [fold_left]. rewrite detect_one_output_randr.
    destruct (randr_output srv id) as [o|] eqn:Ho.
    + destruct (fst (x11_calloc h)).
      * rewrite to_uint32_succ.
        change (S (List.length outs)) with (List.length (o :: outs)).
        specialize (IH (o :: outs) (snd (x11_calloc h))).
        destruct (fold_left _ ids _) as [[outs' count'] h'].
        destruct IH as (Hc & added & -> & Hall). split; [exact Hc|].
        exists (added ++ [o]). rewrite <- app_assoc. split; [reflexivity|].
        apply Forall_app. split.
        -- eapply Forall_impl; [|exact Hall].
           intros a (i & Hi & Ha). exists i. split; [right; exact Hi | exact Ha].
        -- constructor; [|constructor]. exists id. split; [left|]; auto.
      * specialize (IH outs (snd (x11_calloc h))).
        destruct (fold_left _ ids _) as [[outs' count'] h'].
        destruct IH as (Hc & added & -> & Hall). split; [exact Hc|].
        exists added. split; [reflexivity|].
        eapply Forall_impl; [|exact Hall].
        intros a (i & Hi & Ha). exists i. split; [right; exact Hi | exact Ha].
    + specialize (IH outs h).
      destruct (fold_left _ ids _) as [[outs' count'] h'].
      destruct IH as (Hc & added & -> & Hall). split; [exact Hc|].
      exists added. split; [reflexivity|].
      eapply Forall_impl; [|exact Hall].
      intros a (i & Hi & Ha). exists i. split; [right; exact Hi | exact Ha].
Qed.

Lemma substring_length_le s : forall m, (String.length (substring 0 m s) <= m)%nat.
Proof.
  induction s as [|c s IH]; intros [|m]; simpl; try lia.
  specialize (IH m). lia.
Qed.

Lemma randr_output_shape srv id o :
  randr_output srv id = Some o ->
  output_id o = id /\ surface o = None /\
  (String.length (output_name o) <= 63)%nat /\
  exists r c,
    xcb_randr_get_output_info_reply srv id = Some r /\
    connection r = XCB_RANDR_CONNECTION_CONNECTED /\
    reply_crtc r <> XCB_NONE /\
    xcb_randr_get_crtc_info_reply srv (reply_crtc r) = Some c /\
    (x o, y o, width o, height o)
    = (crtc_x c, crtc_y c, crtc_width c, crtc_height c).
Proof.
  unfold randr_output.
  destruct (xcb_randr_get_output_info_reply srv id) as [r|]; [|discriminate].
  destruct (connection r =? XCB_RANDR_CONNECTION_CONNECTED) eqn:Hc;
    [|discriminate].
  destruct (reply_crtc r =? XCB_NONE) eqn:Hn; [discriminate|]. cbn [negb orb].
  destruct (xcb_randr_get_crtc_info_reply srv (reply_crtc r)) as [c|] eqn:Hcrtc;
    [|discriminate].
  intros [= <-]. cbn. apply Z.eqb_eq in Hc. apply Z.eqb_neq in Hn.
  split; [reflexivity|]. split; [reflexivity|].
  split; [apply (substring_length_le _ 63)|].
  exists r, c. rewrite Hcrtc. auto.
Qed.

(** X15.  With RandR present, a reply to the screen-resources query and no
    allocation failing, the output list of the backend becomes the records
    of the connected outputs that have a CRTC and a CRTC reply, in the
    reverse of the order of enumeration; the count is their number (as a
    [uint32_t]) and detection succeeds exactly when the count is not zero.
    The outputs the backend had before are gone. *)
Theorem x11_detect_outputs_randr backend srv ids :
  has_randr backend = true ->
  xcb_randr_get_screen_resources_current_reply srv = Some ids ->
  x11_detect_outputs backend srv [] =
  (0 <? to_uint32 (Z.of_nat (List.length (randr_outputs srv ids))),
   set_outputs backend (rev (randr_outputs srv ids))
     (to_uint32 (Z.of_nat (List.length (randr_outputs srv ids)))),
   []).
Proof.
  intros Hr Hreply. unfold x11_detect_outputs. rewrite Hr, Hreply.
  cbn [negb x11_free_outputs set_outputs outputs output_count].
  change 0 with (to_uint32 (Z.of_nat (@List.length x11_output_t []))) at 1.
  rewrite detect_loop_no_failure, app_nil_r, length_rev. reflexivity.
Qed.

Lemma x11_detect_outputs_randr_witness :
  x11_detect_outputs (sample_backend true [sample_output 9 0 0 640 480 "old"])
    (sample_server true (Some [1; 2; 3])) []
  = (true,
     set_outputs (sample_backend true [sample_output 9 0 0 640 480 "old"])
       [sample_output 2 1920 0 1280 1024 "HDMI-1";
        sample_output 1 0 0 1920 1080 "DP-1"] 2,
     []).
Proof.
  apply (x11_detect_outputs_randr
           (sample_backend true [sample_output 9 0 0 640 480 "old"])
           (sample_server true (Some [1; 2; 3])) [1; 2; 3]);
    reflexivity.
Defined.

Lemma x11_detect_outputs_success_facts backend srv h backend' h' :
  x11_detect_outputs backend srv h = (true, backend', h') ->
  outputs backend' <> [] /\
  output_count backend'
  = to_uint32 (Z.of_nat (List.length (outputs backend'))) /\
  Forall (fun o => (String.length (output_name o) <= 63)%nat /\
                   surface o = None) (outputs backend') /\
  set_outputs backend' (outputs backend) (output_count backend) = backend /\
  (forall outs count,
     x11_detect_outputs (set_outputs backend outs count) srv h
     = (true, backend', h')).
Proof.
  unfold x11_detect_outputs. destruct (has_randr backend) eqn:Hr; cbn [negb].
  - destruct (xcb_randr_get_screen_resources_current_reply srv) as [ids|];
      [|discriminate].
    cbn [x11_free_outputs set_outputs outputs output_count].
    pose proof (detect_loop_invariant srv ids [] h) as Hinv.
    change (to_uint32 (Z.of_nat (@List.length x11_output_t []))) with 0 in Hinv.
    destruct (fold_left _ ids ([], 0, h)) as [[outs count] h1] eqn:Hfold.
    destruct Hinv as (Hcount & added & Hadded & Hall).
    rewrite app_nil_r in Hadded. subst added.
    intros [= Hpos <- <-]. cbn [set_outputs outputs output_count].
    split; [|split; [|split; [|split]]].
    + intros ->. cbn in Hcount. subst count. discriminate Hpos.
    + exact Hcount.
    + eapply Forall_impl; [|exact Hall].
      intros o (id & _ & Ho). apply randr_output_shape in Ho.
      destruct Ho as (_ & Hs & Hn & _). auto.
    + destruct backend; reflexivity.
    + intros outs0 count0. cbn [set_outputs has_randr]. rewrite Hr.
      cbn [negb x11_free_outputs set_outputs outputs output_count].
      rewrite ?Hfold, Hpos. reflexivity.
  - destruct (x11_calloc h) as [[|] h1]; [|discriminate].
    intros [= <- <-]. cbn [set_outputs outputs output_count].
    split; [discriminate|]. split; [reflexivity|].
    split; [constructor; [split; [cbn; lia | reflexivity] | constructor]|].
    split; [destruct backend; reflexivity|].
    intros outs0 count0. cbn [set_outputs has_randr screen]. rewrite Hr.
    reflexivity.
Qed.

(** X16.  Whenever [x11_detect_outputs] succeeds, on any heap: the backend
    has at least one output; the count is the length of the list (as a
    [uint32_t]); every output has a name of at most 63 bytes and no surface
    yet; nothing else of the backend has changed; and the outputs the
    backend had before play no part in the result. *)
Theorem x11_detect_outputs_success backend srv h backend' h' :
  x11_detect_outputs backend srv h = (true, backend', h') ->
  outputs backend' <> [] /\
  output_count backend'
  = to_uint32 (Z.of_nat (List.length (outputs backend'))) /\
  Forall (fun o => (String.length (output_name o) <= 63)%nat /\
                   surface o = None) (outputs backend') /\
  set_outputs backend' (outputs backend) (output_count backend) = backend /\
  (forall outs count,
     x11_detect_outputs (set_outputs backend outs count) srv h
     = (true, backend', h')).
Proof. apply x11_detect_outputs_success_facts. Qed.

Lemma x11_detect_outputs_success_witness :
  output_count (set_outputs (sample_backend false [])
                  [synthetic_output (sample_backend false [])] 1)
  = to_uint32 (Z.of_nat (List.length
       (outputs (set_outputs (sample_backend false [])
                   [synthetic_output (sample_backend false [])] 1)))).
Proof.
  apply (x11_detect_outputs_success (sample_backend false [])
           (sample_server false None) []
           (set_outputs (sample_backend false [])
              [synthetic_output (sample_backend false [])] 1) []).
  reflexivity.
Defined.

Lemma x11_backend_init_facts state srv h backend h' :
  x11_backend_init state srv h = (Some backend, h') ->
  state <> None /\
  fst (x11_calloc h) = true /\
  XOpenDisplay srv = Some (xlib_display backend) /\
  XGetXCBConnection srv <> None /\
  fst (x11_init_atoms srv) = true /\
  atoms backend = snd (x11_init_atoms srv) /\
  screen backend = server_screen srv /\
  root_window backend = root (server_screen srv) /\
  has_randr backend = extension_present (randr_extension_data srv) /\
  has_xfixes backend = extension_present (xfixes_extension_data srv) /\
  initialized backend = true /\
  outputs backend <> [] /\
  output_count backend = to_uint32 (Z.of_nat (List.length (outputs backend))) /\
  Forall (fun o => surface o = None) (outputs backend) /\
  (has_randr backend = false -> outputs backend = [synthetic_output backend]).
Proof.
  unfold x11_backend_init.
  destruct state as [st|]; [|discriminate].
  destruct (x11_calloc h) as [[|] h1]; [|discriminate]. cbn [negb fst].
  destruct (XOpenDisplay srv) as [dpy|]; [|discriminate].
  destruct (XGetXCBConnection srv) as [c|]; [|discriminate].
  destruct (x11_init_atoms srv) as [[|] a] eqn:Hatoms; [|discriminate].
  cbn [negb fst snd].
  match goal with
  | |- context [x11_detect_outputs ?B srv h1] =>
      set (B0 := B);
      destruct (x11_detect_outputs B0 srv h1) as [[[|] b1] h2] eqn:Hdet;
      [|discriminate]
  end.
  cbn [negb]. intros [= <- <-].
  cbn [xlib_display atoms screen root_window has_randr has_xfixes initialized
       outputs output_count].
  pose proof Hdet as Hd.
  apply x11_detect_outputs_success_facts in Hd.
  destruct Hd as (Hne & Hcount & Hall & Hframe & _).
  assert (Hb1 : b1 = set_outputs B0 (outputs b1) (output_count b1)).
  { rewrite <- Hframe at 1. destruct b1; reflexivity. }
  repeat split; try discriminate; try assumption;
    try (rewrite Hb1; reflexivity).
  - eapply Forall_impl; [|exact Hall]. intros o [_ Ho]. exact Ho.
  - intros Hr. rewrite Hb1 in Hr. cbn in Hr.
    unfold x11_detect_outputs in Hdet. cbn [has_randr B0] in Hdet.
    rewrite Hr in Hdet. cbn [negb] in Hdet.
    destruct (x11_calloc h1) as [[|] h3]; [|discriminate].
    injection Hdet as <- <-. reflexivity.
Qed.

(** X17.  A backend that [x11_backend_init] returns was given a state, an
    allocation, a display and a connection; it has the desktop atom; its
    RandR and XFixes flags are those of the server; it is marked
    initialised; it has at least one output, none with a surface, and the
    count that matches; and without RandR its one output is the synthetic
    output of the screen. *)
Theorem x11_backend_init_postconditions state srv h backend h' :
  x11_backend_init state srv h = (Some backend, h') ->
  state <> None /\
  fst (x11_calloc h) = true /\
  XOpenDisplay srv = Some (xlib_display backend) /\
  XGetXCBConnection srv <> None /\
  fst (x11_init_atoms srv) = true /\
  atoms backend = snd (x11_init_atoms srv) /\
  screen backend = server_screen srv /\
  root_window backend = root (server_screen srv) /\
  has_randr backend = extension_present (randr_extension_data srv) /\
  has_xfixes backend = extension_present (xfixes_extension_data srv) /\
  initialized backend = true /\
  outputs backend <> [] /\
  output_count backend = to_uint32 (Z.of_nat (List.length (outputs backend))) /\
  Forall (fun o => surface o = None) (outputs backend) /\
  (has_randr backend = false -> outputs backend = [synthetic_output backend]).
Proof. apply x11_backend_init_facts. Qed.

Lemma x11_backend_init_postconditions_witness :
  initialized (sample_initialised true (Some [1; 2])) = true /\
  outputs (sample_initialised true (Some [1; 2])) <> [].
Proof.
  split;
    apply (x11_backend_init_postconditions (Some sample_state)
             (sample_server true (Some [1; 2])) []
             (sample_initialised true (Some [1; 2])) []);
    reflexivity.
Defined.

(** X18.  The X11 backend reports the multi-output capability and nothing
    else, and reports it exactly when it found RandR; for a backend that
    [x11_backend_init] returned that is exactly when the server has the
    RandR extension.  For null data it reports nothing. *)
Theorem x11_get_capabilities_randr :
  (forall backend,
     x11_get_capabilities (Some backend)
     = if has_randr backend then COMPOSITOR_CAP_MULTI_OUTPUT
       else COMPOSITOR_CAP_NONE) /\
  x11_get_capabilities None = COMPOSITOR_CAP_NONE /\
  (forall state srv h backend h',
     x11_backend_init state srv h = (Some backend, h') ->
     (x11_get_capabilities (Some backend) = COMPOSITOR_CAP_MULTI_OUTPUT
      <-> extension_present (randr_extension_data srv) = true)).
Proof.
  split; [|split].
  - intros backend. unfold x11_get_capabilities.
    destruct (has_randr backend); reflexivity.
  - reflexivity.
  - intros state srv h backend h' Hinit.
    apply x11_backend_init_facts in Hinit.
    destruct Hinit as (_ & _ & _ & _ & _ & _ & _ & _ & Hr & _).
    unfold x11_get_capabilities. rewrite Hr.
    destruct (extension_present (randr_extension_data srv)); simpl.
    + split; reflexivity.
    + split; discriminate.
Qed.

Lemma x11_get_capabilities_randr_witness :
  x11_get_capabilities (Some (sample_initialised true (Some [1; 2])))
  = COMPOSITOR_CAP_MULTI_OUTPUT
  <-> extension_present
        (randr_extension_data (sample_server true (Some [1; 2]))) = true.
Proof.
  apply (proj2 (proj2 x11_get_capabilities_randr) (Some sample_state)
           (sample_server true (Some [1; 2])) []
           (sample_initialised true (Some [1; 2])) []).
  reflexivity.
Defined.

(** ** The X11 backend: more on surfaces *)

Lemma map_geometry_set_output_surface outs : forall i s,
  map geometry (set_output_surface outs i s) = map geometry outs.
Proof.
  induction outs as [|o outs IH]; intros [|i] s; cbn; try reflexivity.
  rewrite IH. reflexivity.
Qed.

Lemma set_output_surface_length outs : forall i s,
  List.length (set_output_surface outs i s) = List.length outs.
Proof.
  induction outs as [|o outs IH]; intros [|i] s; cbn; try reflexivity.
  rewrite IH. reflexivity.
Qed.

Lemma set_output_surface_other outs : forall i j s,
  j <> i -> nth_error (set_output_surface outs i s) j = nth_error outs j.
Proof.
  induction outs as [|o outs IH]; intros [|i] [|j] s Hne; cbn;
    try reflexivity.
  - contradiction Hne. reflexivity.
  - apply IH. intros ->. contradiction Hne. reflexivity.
Qed.

Lemma set_output_surface_same outs : forall i s o,
  nth_error outs i = Some o ->
  exists o', nth_error (set_output_surface outs i s) i = Some o' /\
             surface o' = s /\ geometry o' = geometry o.
Proof.
  induction outs as [|o0 outs IH]; intros [|i] s o; cbn; try discriminate.
  - intros [= <-]. eexists. split; [reflexivity|]. split; reflexivity.
  - apply IH.
Qed.

Ltac no_such_request :=
  let wd := fresh in
  let Hin := fresh in
  intros wd Hin; simpl in Hin;
  repeat (destruct Hin as [Hin|Hin]; [discriminate Hin|]);
  exact Hin.

(** [x11_create_desktop_window] only sends: the frame of the backend and its
    outputs stay, and neither a map nor a destroy request goes out. *)
Lemma x11_create_desktop_window_facts backend srv px py w h win backend' :
  x11_create_desktop_window backend srv px py w h = (win, backend') ->
  backend_frame backend' = backend_frame backend /\
  outputs backend' = outputs backend /\
  (xcb_request_check srv
     (xcb_create_window_checked (xcb_generate_id srv (xcb_conn backend))
        (root_window backend) px py w h (root_visual (screen backend))
        (Z.lor (Z.lor XCB_CW_BACK_PIXEL XCB_CW_BORDER_PIXEL)
               (Z.lor XCB_CW_OVERRIDE_REDIRECT XCB_CW_EVENT_MASK))
        [black_pixel (screen backend); 0; 1;
         Z.lor (Z.lor XCB_EVENT_MASK_EXPOSURE XCB_EVENT_MASK_STRUCTURE_NOTIFY)
               XCB_EVENT_MASK_VISIBILITY_CHANGE]) = None ->
   win = xcb_generate_id srv (xcb_conn backend)) /\
  exists sent,
    xcb_conn backend' = xcb_conn backend ++ sent /\
    (forall wd, ~ In (xcb_map_window wd) sent) /\
    (forall wd, ~ In (xcb_destroy_window wd) sent).
Proof.
  unfold x11_create_desktop_window. cbv zeta.
  match goal with
  | |- context [xcb_request_check srv ?r] =>
      destruct (xcb_request_check srv r) as [err|]
  end.
  - intros [= <- <-]. split; [reflexivity|]. split; [reflexivity|].
    split; [discriminate|]. eexists. split; [reflexivity|].
    split; no_such_request.
  - destruct (has_xfixes backend) eqn:Hx; cbn [has_xfixes send]; rewrite ?Hx;
      intros [= <- <-]; unfold backend_frame; cbn; rewrite ?Hx;
      (split; [reflexivity|]); (split; [reflexivity|]);
      (split; [reflexivity|]);
      rewrite <- ?app_assoc; cbn [app];
      eexists; (split; [reflexivity|]); split; no_such_request.
Qed.

(** What a successful [x11_create_surface] has done, step by step. *)
Lemma x11_create_surface_success backend cfg srv h s data' h' :
  x11_create_surface (Some backend) (Some cfg) srv h = (Some s, data', h') ->
  exists o rest win b1,
    initialized backend = true /\
    outputs backend = o :: rest /\
    fst (x11_calloc h) = true /\
    fst (x11_calloc (snd (x11_calloc h))) = true /\
    h' = snd (x11_calloc (snd (x11_calloc h))) /\
    x11_create_desktop_window backend srv (x o) (y o)
      (to_uint16 (if 0 <? cfg_width cfg then cfg_width cfg else width o))
      (to_uint16 (if 0 <? cfg_height cfg then cfg_height cfg else height o))
    = (win, b1) /\
    win <> XCB_WINDOW_NONE /\
    s = {| wl_surface := None; egl_window := None; egl_surface := None;
           output := cfg_output cfg;
           surface_width :=
             to_uint16 (if 0 <? cfg_width cfg then cfg_width cfg else width o);
           surface_height :=
             to_uint16 (if 0 <? cfg_height cfg then cfg_height cfg
                        else height o);
           scale := 1; config := cfg; configured := false; committed := false;
           backend_data := {| window := win; xlib_window := win;
                              sd_output := Some O; mapped := true;
                              sd_configured := true |} |} /\
    data' = Some (set_outputs (send (send b1 (xcb_map_window win)) xcb_flush)
                    (set_output_surface (outputs b1) O (Some win))
                    (output_count b1)).
Proof.
  unfold x11_create_surface.
  destruct (initialized backend); [|discriminate]. cbn [negb].
  destruct (outputs backend) as [|o rest]; [discriminate|].
  destruct (x11_calloc h) as [[|] h1]; [|discriminate]. cbn [negb fst snd].
  destruct (x11_calloc h1) as [[|] h2]; [|discriminate]. cbn [negb fst snd].
  cbv zeta.
  destruct (x11_create_desktop_window backend srv (x o) (y o)
              (to_uint16 (if 0 <? cfg_width cfg then cfg_width cfg
                          else width o))
              (to_uint16 (if 0 <? cfg_height cfg then cfg_height cfg
                          else height o)))
    as [win b1] eqn:Hwin.
  destruct (win =? XCB_WINDOW_NONE) eqn:Hnone; [discriminate|].
  apply Z.eqb_neq in Hnone. intros [= <- <- <-].
  exists o, rest, win, b1. repeat split; auto.
Qed.

Lemma to_uint16_range z : 0 <= to_uint16 z < 65536.
Proof. unfold to_uint16. apply Z.mod_pos_bound. lia. Qed.

(** X19.  No surface operation of the X11 backend changes the display, the
    screen, the atoms, the extension flags, the initialised flag, the
    number of outputs or the geometry and name of any output; and each one
    only adds requests to those already sent over the connection. *)
Theorem x11_surface_operations_frame backend :
  (forall cfg srv h backend',
     snd (fst (x11_create_surface (Some backend) cfg srv h)) = Some backend' ->
     backend_frame backend' = backend_frame backend /\
     exists sent, xcb_conn backend' = xcb_conn backend ++ sent) /\
  (forall s cfg,
     backend_frame (snd (fst (x11_configure_surface backend s cfg)))
     = backend_frame backend /\
     outputs (snd (fst (x11_configure_surface backend s cfg)))
     = outputs backend /\
     exists sent,
       xcb_conn (snd (fst (x11_configure_surface backend s cfg)))
       = xcb_conn backend ++ sent) /\
  (forall s,
     backend_frame (x11_destroy_surface backend s) = backend_frame backend /\
     exists sent,
       xcb_conn (x11_destroy_surface backend s) = xcb_conn backend ++ sent) /\
  (forall s,
     backend_frame (x11_commit_surface backend s) = backend_frame backend /\
     outputs (x11_commit_surface backend s) = outputs backend /\
     exists sent,
       xcb_conn (x11_commit_surface backend s) = xcb_conn backend ++ sent).
Proof.
  split; [|split; [|split]].
  - intros cfg srv h backend'. unfold x11_create_surface.
    destruct cfg as [cfg|];
      [|intros [= <-]; split; [reflexivity|];
        exists []; symmetry; apply app_nil_r].
    destruct (initialized backend);
      [|intros [= <-]; split; [reflexivity|];
        exists []; symmetry; apply app_nil_r].
    cbn [negb].
    destruct (outputs backend) as [|o rest] eqn:Hout;
      [intros [= <-]; split; [reflexivity|];
       exists []; symmetry; apply app_nil_r|].
    destruct (x11_calloc h) as [[|] h1];
      [|intros [= <-]; split; [reflexivity|];
        exists []; symmetry; apply app_nil_r].
    cbn [negb].
    destruct (x11_calloc h1) as [[|] h2];
      [|intros [= <-]; split; [reflexivity|];
        exists []; symmetry; apply app_nil_r].
    cbn [negb]. cbv zeta.
    destruct (x11_create_desktop_window backend srv (x o) (y o) _ _)
      as [win b1] eqn:Hwin.
    apply x11_create_desktop_window_facts in Hwin.
    destruct Hwin as (Hframe & Houts & _ & sent & Hsent & _).
    destruct (win =? XCB_WINDOW_NONE); cbn [fst snd]; intros [= <-].
    + split; [exact Hframe | eauto].
    + split.
      * rewrite <- Hframe. unfold backend_frame. cbn.
        rewrite map_geometry_set_output_surface. reflexivity.
      * cbn. rewrite Hsent, <- !app_assoc. eauto.
  - intros s cfg. unfold x11_configure_surface.
    destruct s as [s|];
      [|cbn; repeat split; exists []; symmetry; apply app_nil_r].
    destruct cfg as [cfg|];
      [|cbn; repeat split; exists []; symmetry; apply app_nil_r].
    cbv zeta. cbn [fst snd].
    destruct (negb (cfg_width cfg =? surface_width s)
              || negb (cfg_height cfg =? surface_height s));
      cbn; repeat split; rewrite <- ?app_assoc; eauto.
  - intros s. unfold x11_destroy_surface. destruct s as [s|];
      [|split; [reflexivity | exists []; symmetry; apply app_nil_r]].
    cbv zeta.
    destruct (negb (window (backend_data s) =? XCB_WINDOW_NONE));
      destruct (sd_output (backend_data s)) as [i|];
      unfold backend_frame; cbn;
      rewrite ?map_geometry_set_output_surface, <- ?app_assoc;
      (split; [reflexivity|]); eauto;
      exists []; symmetry; apply app_nil_r.
  - intros s. unfold x11_commit_surface. destruct s as [s|]; cbn.
    + repeat split. eauto.
    + repeat split. exists []. symmetry. apply app_nil_r.
Qed.

Lemma x11_surface_operations_frame_witness :
  backend_frame (sample_created_backend (sample_config 0 0 None))
  = backend_frame sample_two_outputs.
Proof.
  refine (proj1 (proj1 (x11_surface_operations_frame sample_two_outputs)
                   (Some (sample_config 0 0 None)) (sample_server true None) []
                   (sample_created_backend (sample_config 0 0 None)) _)).
  reflexivity.
Defined.

(** X20.  [x11_create_surface] on a backend and a configuration returns a
    surface exactly when the backend is initialised, has an output, both
    allocations succeed and the window made for the head output is not
    [XCB_WINDOW_NONE].  When it returns null the surface pointers of the
    outputs are as they were and no window has been mapped; with null data
    or a null configuration it returns null and does nothing. *)
Theorem x11_create_surface_outcome backend cfg srv h :
  let r := x11_create_surface (Some backend) (Some cfg) srv h in
  (fst (fst r) <> None
   <-> initialized backend = true /\
       fst (x11_calloc h) = true /\
       fst (x11_calloc (snd (x11_calloc h))) = true /\
       exists o rest,
         outputs backend = o :: rest /\
         fst (x11_create_desktop_window backend srv (x o) (y o)
                (to_uint16 (if 0 <? cfg_width cfg then cfg_width cfg
                            else width o))
                (to_uint16 (if 0 <? cfg_height cfg then cfg_height cfg
                            else height o)))
         <> XCB_WINDOW_NONE) /\
  (fst (fst r) = None ->
   exists backend' sent,
     snd (fst r) = Some backend' /\
     outputs backend' = outputs backend /\
     xcb_conn backend' = xcb_conn backend ++ sent /\
     forall wd, ~ In (xcb_map_window wd) sent) /\
  x11_create_surface None (Some cfg) srv h = (None, None, h) /\
  x11_create_surface (Some backend) None srv h = (None, Some backend, h).
Proof.
  cbv zeta. split; [|split; [|split; reflexivity]].
  - unfold x11_create_surface.
    destruct (initialized backend); cbn [negb];
      [|split; [intros H; contradiction H; reflexivity
               | intros (H & _); discriminate H]].
    destruct (outputs backend) as [|o rest];
      [split; [intros H; contradiction H; reflexivity
              | intros (_ & _ & _ & o & rest & H & _); discriminate H]|].
    destruct (x11_calloc h) as [[|] h1]; cbn [negb fst snd];
      [|split; [intros H; contradiction H; reflexivity
               | intros (_ & H & _); discriminate H]].
    destruct (x11_calloc h1) as [[|] h2]; cbn [negb fst snd];
      [|split; [intros H; contradiction H; reflexivity
               | intros (_ & _ & H & _); discriminate H]].
    cbv zeta.
    destruct (x11_create_desktop_window backend srv (x o) (y o) _ _)
      as [win b1] eqn:Hwin.
    destruct (win =? XCB_WINDOW_NONE) eqn:Hnone; cbn [fst snd].
    + apply Z.eqb_eq in Hnone. split; [intros H; contradiction H; reflexivity|].
      intros (_ & _ & _ & o' & rest' & [= <- <-] & Hw).
      rewrite Hwin in Hw. contradiction.
    + apply Z.eqb_neq in Hnone. split; [|discriminate].
      intros _. repeat split. exists o, rest. rewrite Hwin. auto.
  - unfold x11_create_surface.
    destruct (initialized backend); cbn [negb];
      [|intros _; exists backend, []; rewrite app_nil_r; auto].
    destruct (outputs backend) as [|o rest] eqn:Hout;
      [intros _; exists backend, []; rewrite app_nil_r, Hout; auto|].
    destruct (x11_calloc h) as [[|] h1]; cbn [negb];
      [|intros _; exists backend, []; rewrite app_nil_r, Hout; auto].
    destruct (x11_calloc h1) as [[|] h2]; cbn [negb];
      [|intros _; exists backend, []; rewrite app_nil_r, Hout; auto].
    cbv zeta.
    destruct (x11_create_desktop_window backend srv (x o) (y o) _ _)
      as [win b1] eqn:Hwin.
    apply x11_create_desktop_window_facts in Hwin.
    destruct Hwin as (_ & Houts & _ & sent & Hsent & Hmap & _).
    destruct (win =? XCB_WINDOW_NONE); cbn [fst snd]; [|discriminate].
    intros _. exists b1, sent. rewrite Houts, Hout. auto.
Qed.

Lemma x11_create_surface_outcome_witness :
  exists backend' sent,
    snd (fst (x11_create_surface (Some (sample_backend true []))
                (Some (sample_config 0 0 None)) (sample_server true None) []))
    = Some backend' /\
    outputs backend' = outputs (sample_backend true []) /\
    xcb_conn backend' = xcb_conn (sample_backend true []) ++ sent /\
    forall wd, ~ In (xcb_map_window wd) sent.
Proof.
  apply (x11_create_surface_outcome (sample_backend true [])
           (sample_config 0 0 None) (sample_server true None) []).
  reflexivity.
Defined.

(** X21.  [x11_destroy_surface] on a surface, the backend passed in being
    the one the surface points back to: if the window of the surface is
    not [XCB_WINDOW_NONE] it sends a destroy request for that window and a
    flush, otherwise nothing.  If the surface is bound to the output at
    position [i], the surface pointer of that output becomes null and its
    geometry stays; every other output, and the number of outputs, is as
    before.  A surface bound to no output leaves the outputs alone, and a
    null surface leaves the backend alone. *)
Theorem x11_destroy_surface_effect backend s :
  xcb_conn (x11_destroy_surface backend (Some s))
  = xcb_conn backend
    ++ (if window (backend_data s) =? XCB_WINDOW_NONE then []
        else [xcb_destroy_window (window (backend_data s)); xcb_flush]) /\
  List.length (outputs (x11_destroy_surface backend (Some s)))
  = List.length (outputs backend) /\
  (forall i,
     sd_output (backend_data s) = Some i ->
     (forall o,
        nth_error (outputs backend) i = Some o ->
        exists o',
          nth_error (outputs (x11_destroy_surface backend (Some s))) i
          = Some o' /\
          surface o' = None /\ geometry o' = geometry o) /\
     (forall j,
        j <> i ->
        nth_error (outputs (x11_destroy_surface backend (Some s))) j
        = nth_error (outputs backend) j)) /\
  (sd_output (backend_data s) = None ->
   outputs (x11_destroy_surface backend (Some s)) = outputs backend) /\
  x11_destroy_surface backend None = backend.
Proof.
  unfold x11_destroy_surface. cbv zeta.
  destruct (window (backend_data s) =? XCB_WINDOW_NONE); cbn [negb];
    destruct (sd_output (backend_data s)) as [i0|];
    cbn [set_outputs send outputs xcb_conn];
    rewrite ?set_output_surface_length, <- ?app_assoc, ?app_nil_r;
    (split; [reflexivity|]); (split; [reflexivity|]);
    (split; [|split; [|reflexivity]]);
    try discriminate; try reflexivity;
    intros i [= <-]; split;
    [ intros o Ho; apply set_output_surface_same; exact Ho
    | intros j Hne; apply set_output_surface_other; exact Hne
    | intros o Ho; apply set_output_surface_same; exact Ho
    | intros j Hne; apply set_output_surface_other; exact Hne ].
Qed.

Lemma x11_destroy_surface_effect_witness :
  exists o',
    nth_error (outputs (x11_destroy_surface sample_bound_backend
                          (Some sample_bound_surface))) 0
    = Some o' /\
    surface o' = None /\
    geometry o' = geometry (sample_output 2 1920 0 1280 1024 "HDMI-1").
Proof.
  destruct (proj1 (proj1 (proj2 (proj2 (x11_destroy_surface_effect
                                          sample_bound_backend
                                          sample_bound_surface)))
                     O eq_refl)
              (set_surface_of (sample_output 2 1920 0 1280 1024 "HDMI-1")
                 (Some 4194304))
              eq_refl)
    as (o' & Hnth & Hs & Hg).
  exists o'. split; [exact Hnth|]. split; [exact Hs | exact Hg].
Defined.

(** X22.  A surface that [x11_create_surface] returns has a width and a
    height between 0 and 65535, whatever the configuration asks for; its
    scale is 1; it has no EGL window and no EGL surface; it stores the
    configuration; its window is not [XCB_WINDOW_NONE], is mapped and is
    also its Xlib window; the head output of the backend now points to it.
    Its own [configured] and [committed] flags are still false: only the
    flag in the private data of the backend is set. *)
Theorem x11_create_surface_initial_state backend cfg srv h s backend' h' :
  x11_create_surface (Some backend) (Some cfg) srv h
  = (Some s, Some backend', h') ->
  0 <= surface_width s < 65536 /\
  0 <= surface_height s < 65536 /\
  scale s = 1 /\
  egl_window s = None /\ egl_surface s = None /\ wl_surface s = None /\
  config s = cfg /\
  configured s = false /\ committed s = false /\
  sd_configured (backend_data s) = true /\
  mapped (backend_data s) = true /\
  xlib_window (backend_data s) = window (backend_data s) /\
  window (backend_data s) <> XCB_WINDOW_NONE /\
  option_map surface (hd_error (outputs backend'))
  = Some (Some (window (backend_data s))).
Proof.
  intros Hcreate. apply x11_create_surface_success in Hcreate.
  destruct Hcreate as (o & rest & win & b1 & _ & Hout & _ & _ & _ & Hwin
                       & Hne & -> & [= ->]).
  apply x11_create_desktop_window_facts in Hwin.
  destruct Hwin as (_ & Houts & _).
  cbn [surface_width surface_height scale egl_window egl_surface wl_surface
       config configured committed backend_data sd_configured mapped
       xlib_window window set_outputs outputs].
  rewrite Houts, Hout.
  repeat split; auto; apply to_uint16_range.
Qed.

Lemma x11_create_surface_initial_state_witness :
  0 <= surface_width (sample_created_surface (sample_config 70000 (-5) None))
  < 65536.
Proof.
  apply (x11_create_surface_initial_state sample_two_outputs
           (sample_config 70000 (-5) None) (sample_server true None) []
           (sample_created_surface (sample_config 70000 (-5) None))
           (sample_created_backend (sample_config 70000 (-5) None)) []).
  reflexivity.
Defined.

(** X23.  [x11_configure_surface] on a surface and a configuration always
    succeeds; it stores the configuration and leaves the surface at the
    width and height of the configuration, and changes nothing else of the
    surface: not its output (even if the configuration names another), its
    scale, its window or its flags.  If the dimensions are those the
    surface had, only a flush is sent; otherwise one request that sets the
    width and the height of the window (as [uint32_t]) and never its
    position, then the flush.  With a null surface or a null configuration
    it fails and changes nothing. *)
Theorem x11_configure_surface_effect backend s cfg :
  (exists backend' s',
     x11_configure_surface backend (Some s) (Some cfg)
     = (true, backend', Some s') /\
     (wl_surface s', egl_window s', egl_surface s', output s', scale s',
      configured s', committed s', backend_data s')
     = (wl_surface s, egl_window s, egl_surface s, output s, scale s,
        configured s, committed s, backend_data s) /\
     config s' = cfg /\
     surface_width s' = cfg_width cfg /\
     surface_height s' = cfg_height cfg /\
     (cfg_width cfg = surface_width s /\ cfg_height cfg = surface_height s ->
      xcb_conn backend' = xcb_conn backend ++ [xcb_flush]) /\
     (cfg_width cfg <> surface_width s \/ cfg_height cfg <> surface_height s ->
      xcb_conn backend'
      = xcb_conn backend
        ++ [xcb_configure_window (window (backend_data s))
              (Z.lor XCB_CONFIG_WINDOW_WIDTH XCB_CONFIG_WINDOW_HEIGHT)
              [to_uint32 (cfg_width cfg); to_uint32 (cfg_height cfg)];
            xcb_flush])) /\
  x11_configure_surface backend None (Some cfg) = (false, backend, None) /\
  x11_configure_surface backend (Some s) None = (false, backend, Some s).
Proof.
  split; [|split; reflexivity].
  unfold x11_configure_surface. cbv zeta. do 2 eexists.
  split; [reflexivity|].
  cbn [wl_surface egl_window egl_surface output scale configured committed
       backend_data config surface_width surface_height].
  split; [reflexivity|]. split; [reflexivity|].
  destruct (Z.eqb_spec (cfg_width cfg) (surface_width s)) as [Hw|Hw];
    destruct (Z.eqb_spec (cfg_height cfg) (surface_height s)) as [Hh|Hh];
    cbn [negb orb];
    (split; [congruence|]); (split; [congruence|]); split;
    try (intros [? ?]; congruence); try (intros [?|?]; congruence);
    intros _; cbn; rewrite <- ?app_assoc; reflexivity.
Qed.

Lemma x11_configure_surface_effect_witness :
  exists backend' s',
    x11_configure_surface (sample_created_backend (sample_config 0 0 None))
      (Some (sample_created_surface (sample_config 0 0 None)))
      (Some (sample_config 800 600 (Some 5)))
    = (true, backend', Some s') /\
    xcb_conn backend'
    = xcb_conn (sample_created_backend (sample_config 0 0 None))
      ++ [xcb_configure_window
            (window (backend_data
                       (sample_created_surface (sample_config 0 0 None))))
            12 [800; 600];
          xcb_flush].
Proof.
  destruct (proj1 (x11_configure_surface_effect
                     (sample_created_backend (sample_config 0 0 None))
                     (sample_created_surface (sample_config 0 0 None))
                     (sample_config 800 600 (Some 5))))
    as (b & s & Hrun & _ & _ & _ & _ & _ & Hsent).
  exists b, s. split; [exact Hrun|].
  apply Hsent. left. vm_compute. discriminate.
Defined.

(** X25.  On a backend that [x11_backend_init] has just returned,
    [x11_create_surface] returns a surface for every configuration as long
    as its two allocations succeed, the server raises no error for the
    window and the identifier generated for the window is not
    [XCB_WINDOW_NONE]: the checks for an initialised backend and for an
    output cannot fail there. *)
Theorem x11_init_then_create_surface state srv h backend h1 cfg :
  x11_backend_init state srv h = (Some backend, h1) ->
  fst (x11_calloc h1) = true ->
  fst (x11_calloc (snd (x11_calloc h1))) = true ->
  (forall req, xcb_request_check srv req = None) ->
  xcb_generate_id srv (xcb_conn backend) <> XCB_WINDOW_NONE ->
  exists s backend',
    x11_create_surface (Some backend) (Some cfg) srv h1
    = (Some s, Some backend', snd (x11_calloc (snd (x11_calloc h1)))) /\
    window (backend_data s) = xcb_generate_id srv (xcb_conn backend) /\
    sd_output (backend_data s) = Some O.
Proof.
  intros Hinit Ha1 Ha2 Hcheck Hid.
  apply x11_backend_init_facts in Hinit.
  destruct Hinit as (_ & _ & _ & _ & _ & _ & _ & _ & _ & _ & Hi & Hne & _).
  unfold x11_create_surface. rewrite Hi. cbn [negb].
  destruct (outputs backend) as [|o rest]; [contradiction Hne; reflexivity|].
  destruct (x11_calloc h1) as [[|] h2]; [|discriminate Ha1].
  cbn [negb fst snd] in *.
  destruct (x11_calloc h2) as [[|] h3]; [|discriminate Ha2].
  cbn [negb fst snd] in *. cbv zeta.
  destruct (x11_create_desktop_window backend srv (x o) (y o) _ _)
    as [win b1] eqn:Hwin.
  apply x11_create_desktop_window_facts in Hwin.
  destruct Hwin as (_ & _ & Hwid & _).
  specialize (Hwid (Hcheck _)). subst win.
  apply Z.eqb_neq in Hid. rewrite Hid.
  do 2 eexists. split; [reflexivity|]. split; reflexivity.
Qed.

Lemma x11_init_then_create_surface_witness :
  exists s backend',
    x11_create_surface (Some (sample_initialised true (Some [1; 2])))
      (Some (sample_config 0 0 None)) (sample_server true (Some [1; 2])) []
    = (Some s, Some backend', snd (x11_calloc (snd (x11_calloc [])))) /\
    window (backend_data s)
    = xcb_generate_id (sample_server true (Some [1; 2]))
        (xcb_conn (sample_initialised true (Some [1; 2]))) /\
    sd_output (backend_data s) = Some O.
Proof.
  apply (x11_init_then_create_surface (Some sample_state)
           (sample_server true (Some [1; 2])) []
           (sample_initialised true (Some [1; 2])) []
           (sample_config 0 0 None)).
  - reflexivity.
  - reflexivity.
  - reflexivity.
  - intros req. reflexivity.
  - vm_compute. discriminate.
Defined.

(** X26.  For a surface that [x11_create_surface] returned,
    [x11_create_egl_window] succeeds and hands out the X window itself as
    the native EGL window, a handle that is not null; it records the width
    and height it is given and changes nothing else.
    [x11_destroy_egl_window] afterwards clears the handle and keeps those
    dimensions.  On a null surface the first fails and the second does
    nothing. *)
Theorem x11_egl_window_is_x_window backend cfg srv h s backend' h' w ht :
  x11_create_surface (Some backend) (Some cfg) srv h
  = (Some s, Some backend', h') ->
  (exists s1,
     x11_create_egl_window (Some s) w ht = (true, Some s1) /\
     egl_window s1 = Some (window (backend_data s)) /\
     egl_window s1 <> Some XCB_WINDOW_NONE /\
     (surface_width s1, surface_height s1) = (w, ht) /\
     (config s1, output s1, scale s1, backend_data s1)
     = (config s, output s, scale s, backend_data s) /\
     exists s2,
       x11_destroy_egl_window (Some s1) = Some s2 /\
       egl_window s2 = None /\
       (surface_width s2, surface_height s2) = (w, ht) /\
       backend_data s2 = backend_data s) /\
  x11_create_egl_window None w ht = (false, None) /\
  x11_destroy_egl_window None = None.
Proof.
  intros Hcreate. apply x11_create_surface_success in Hcreate.
  destruct Hcreate as (o & rest & win & b1 & _ & _ & _ & _ & _ & _
                       & Hne & -> & _).
  split; [|split; reflexivity].
  unfold x11_create_egl_window, window_as_pointer.
  cbn [backend_data xlib_window window].
  assert (Hz : (win =? 0) = false) by (apply Z.eqb_neq; exact Hne).
  rewrite Hz.
  eexists. split; [reflexivity|]. cbn. repeat split.
  - intros [= H]. contradiction.
  - eexists. repeat split.
Qed.

Lemma x11_egl_window_is_x_window_witness :
  exists s1,
    x11_create_egl_window
      (Some (sample_created_surface (sample_config 0 0 None))) 640 480
    = (true, Some s1) /\
    egl_window s1
    = Some (window (backend_data
                      (sample_created_surface (sample_config 0 0 None)))).
Proof.
  destruct (proj1 (x11_egl_window_is_x_window sample_two_outputs
                     (sample_config 0 0 None) (sample_server true None) []
                     (sample_created_surface (sample_config 0 0 None))
                     (sample_created_backend (sample_config 0 0 None)) []
                     640 480 eq_refl))
    as (s1 & Hrun & Hegl & _).
  exists s1. split; [exact Hrun | exact Hegl].
Defined.

(** ** Detection and selection together *)


